(** * hls-vi-historical: granule transfer and artifact assembly

    A shallow embedding of [hls_vi_historical/main.py].  Pure string
    functions of the module are Rocq functions on [string]; the functions
    that touch the local disk, the object store or an external generator are
    computations in a state-and-exception monad over an abstract platform
    (the operating system, boto3, lxml, hls_manifest), which records the
    calls on the object store, the metadata file and the manifest generator
    in a trace. *)

From Stdlib Require Import ZArith String Ascii.
From stdpp Require Import base list strings gmap.

(** ** Python string primitives

    Python [str] values are modelled as [string] (a sequence of bytes).  The
    separators the program uses (['.'] and ['/']) are ASCII. *)

Module Str.

(** [s.startswith(p)] *)
Definition startswith (s p : string) : bool := String.prefix p s.

(** [s.rfind(c)] for a one-character [c]: the highest index at which [c]
    occurs, or [-1]. *)
Fixpoint rfind (c : ascii) (s : string) : Z :=
  match s with
  | EmptyString => (-1)%Z
  | String a s' =>
      let r := rfind c s' in
      if (0 <=? r)%Z then (r + 1)%Z
      else if Ascii.eqb a c then 0%Z else (-1)%Z
  end.

Fixpoint drop (n : nat) (s : string) : string :=
  match n, s with
  | O, _ => s
  | S _, EmptyString => EmptyString
  | S n', String _ s' => drop n' s'
  end.

(** [s[k:]] for [0 <= k]; a negative [k] (counted from the end in Python)
    does not occur in the program and is clipped to [0]. *)
Definition slice_from (k : Z) (s : string) : string := drop (Z.to_nat k) s.

(** [s[:n]] *)
Definition slice_to (n : nat) (s : string) : string := substring 0 n s.

(** [s.split(c)] for a one-character separator. *)
Fixpoint split (c : ascii) (s : string) : list string :=
  match s with
  | EmptyString => [EmptyString]
  | String a s' =>
      if Ascii.eqb a c then EmptyString :: split c s'
      else match split c s' with
           | [] => [String a EmptyString]
           | f :: fs => String a f :: fs
           end
  end.

(** [c.join(fields)] *)
Definition join (c : ascii) (fields : list string) : string :=
  String.concat (String c EmptyString) fields.

(** [s.replace(old, new, 1)]: the first occurrence only. *)
Fixpoint replace_first (old new s : string) : string :=
  if String.prefix old s then new +:+ drop (String.length old) s
  else match s with
       | EmptyString => EmptyString
       | String a s' => String a (replace_first old new s')
       end.

(** [c not in s] *)
Fixpoint lacks (c : ascii) (s : string) : bool :=
  match s with
  | EmptyString => true
  | String a s' => negb (Ascii.eqb a c) && lacks c s'
  end.

End Str.

(** ** Granule identifiers (package [hls_vi]) *)

Inductive Instrument := L30 | S30.

Definition Instrument_name (i : Instrument) : string :=
  match i with L30 => "L30" | S30 => "S30" end.

(** Modelled from the spec: the band enumerations [L30Band] and [S30Band]
    are declared in the package [hls_vi], which is not part of the sources.
    Their members, in declaration order, are the six band names that the
    doctest of [granule_sources] lists for each instrument. *)
Inductive L30Band := L30_B02 | L30_B03 | L30_B04 | L30_B05 | L30_B06 | L30_B07.
Inductive S30Band := S30_B02 | S30_B03 | S30_B04 | S30_B8A | S30_B11 | S30_B12.

Definition L30Band_name (b : L30Band) : string :=
  match b with
  | L30_B02 => "B02" | L30_B03 => "B03" | L30_B04 => "B04"
  | L30_B05 => "B05" | L30_B06 => "B06" | L30_B07 => "B07"
  end.

Definition S30Band_name (b : S30Band) : string :=
  match b with
  | S30_B02 => "B02" | S30_B03 => "B03" | S30_B04 => "B04"
  | S30_B8A => "B8A" | S30_B11 => "B11" | S30_B12 => "B12"
  end.

(** Iterating an enumeration class yields its members in declaration order. *)
Definition L30Band_members : list L30Band :=
  [L30_B02; L30_B03; L30_B04; L30_B05; L30_B06; L30_B07].
Definition S30Band_members : list S30Band :=
  [S30_B02; S30_B03; S30_B04; S30_B8A; S30_B11; S30_B12].

Definition band_names (i : Instrument) : list string :=
  match i with
  | L30 => L30Band_name <$> L30Band_members
  | S30 => S30Band_name <$> S30Band_members
  end.

Record GranuleId := {
  instrument : Instrument;
  tile_id : string;
  acquisition_date : string;
  version : string
}.

(** Exceptions.  [External e] is an exception raised by a collaborator
    (downloader, object store, XML library, manifest generator). *)
Inductive exn (Err : Type) :=
  | MalformedGranuleId
  | ValueError
  | External (e : Err).
Arguments MalformedGranuleId {Err}.
Arguments ValueError {Err}.
Arguments External {Err} e.

Inductive res (Err A : Type) :=
  | Ok (a : A)
  | Raise (e : exn Err).
Arguments Ok {Err A} a.
Arguments Raise {Err A} e.

Definition Instrument_parse (s : string) : option Instrument :=
  if String.eqb s "L30" then Some L30
  else if String.eqb s "S30" then Some S30
  else None.

(** Modelled from the spec: [GranuleId.from_string] is defined in the package
    [hls_vi], which is not part of the sources.  The identifier is split on
    ['.']; at least five fields are required (literal [HLS], instrument,
    tile, acquisition timestamp, version; the version is written [v<VER>] and
    keeps any further dots); the parse fails with [MalformedGranuleId] when
    the string does not have this format or the instrument token is not a
    known one. *)
Definition GranuleId_from_string {Err} (s : string) : res Err GranuleId :=
  match Str.split "." s with
  | hls :: instr :: tile :: acq :: v :: rest =>
      if String.eqb hls "HLS" && Str.startswith v "v" then
        match Instrument_parse instr with
        | Some i =>
            Ok {| instrument := i; tile_id := tile; acquisition_date := acq;
                  version := Str.join "." (v :: rest) |}
        | None => Raise MalformedGranuleId
        end
      else Raise MalformedGranuleId
  | _ => Raise MalformedGranuleId
  end.

(** The identifier format [HLS.<INSTR>.<TILE>.<TS>.v<VER>] with a known
    instrument: tile and timestamp are single dot-free fields. *)
Definition well_formed (s : string) : Prop :=
  exists (i : Instrument) (tile acq ver : string),
    Str.lacks "." tile = true /\ Str.lacks "." acq = true /\
    s = "HLS." +:+ Instrument_name i +:+ "." +:+ tile +:+ "." +:+ acq +:+ ".v" +:+ ver.

(** ** [granule_sources] *)

(** A source is a [(bucket, key)] pair. *)
Definition Source : Type := string * string.

Definition granule_sources (granule_id : string) : list Source :=
  let is_l30 := Str.startswith granule_id "HLS.L30" in
  let collection := "HLS" +:+ (if is_l30 then "L" else "S") +:+ "30.020" in
  let bands := if is_l30 then L30Band_name <$> L30Band_members
               else S30Band_name <$> S30Band_members in
  let suffixes :=
    ((fun band => "." +:+ band +:+ ".tif") <$> bands) ++ [".Fmask.tif"; ".cmr.xml"] in
  ("lp-prod-public",
   collection +:+ "/" +:+ granule_id +:+ "/" +:+ granule_id +:+ ".jpg")
  :: ((fun suffix =>
         ("lp-prod-protected",
          collection +:+ "/" +:+ granule_id +:+ "/" +:+ granule_id +:+ suffix))
      <$> suffixes).

(** ** [output_key_prefix] *)

Definition output_key_prefix {Err} (granule_id : string) : res Err string :=
  match GranuleId_from_string (Err:=Err) granule_id with
  | Raise e => Raise e
  | Ok id_ =>
      let vi_granule_id := Str.replace_first "HLS" "HLS-VI" granule_id in
      let yyyyddd := Str.slice_to 7 (acquisition_date id_) in
      Ok (Instrument_name (instrument id_) +:+ "_VI/data/" +:+ yyyyddd
          +:+ "/" +:+ vi_granule_id)
  end.

(** [granule_sources] as a computation that may raise: its body has no
    [raise] and calls only total string operations, so it always returns. *)
Definition granule_sources_outcome {Err} (granule_id : string)
    : res Err (list Source) :=
  Ok (granule_sources granule_id).

Definition collection_of (i : Instrument) : string :=
  match i with L30 => "HLSL30.020" | S30 => "HLSS30.020" end.

(** The nine locators of a granule of instrument [i], as the specification
    lists them: the browse image, the band rasters, the mask, the metadata. *)
Definition expected_sources (i : Instrument) (granule_id : string) : list Source :=
  let key suffix :=
    collection_of i +:+ "/" +:+ granule_id +:+ "/" +:+ granule_id +:+ suffix in
  [("lp-prod-public", key ".jpg")]
  ++ ((fun b => ("lp-prod-protected", key ("." +:+ b +:+ ".tif"))) <$> band_names i)
  ++ [("lp-prod-protected", key ".Fmask.tif");
      ("lp-prod-protected", key ".cmr.xml")].

(** ** The platform

    Everything the module calls but does not define: [pathlib] and [open],
    the boto3 S3 client, lxml's parser, transformer and writer with the
    stylesheet of the package, and the manifest generator.
    A call either returns or raises, and may change the world (the local
    disk and the object stores). *)

Class Platform := {
  World : Type;
  Path : Type;
  Body : Type;
  Err : Type;
  (** a compiled stylesheet ([etree.XSLT]) *)
  Stylesheet : Type;
  (** a parsed document ([etree._ElementTree]) *)
  Document : Type;
  (** [dir / name] *)
  joinpath : Path -> string -> Path;
  (** [p.absolute()] *)
  absolute : Path -> Path;
  (** [p.name] *)
  path_name : Path -> string;
  (** [str(p)] *)
  path_str : Path -> string;
  (** [p.exists()] *)
  path_exists : Path -> World -> bool;
  (** [p.iterdir()] *)
  iterdir : Path -> World -> res Err (list Path);
  (** [open(p, "rb")] *)
  open_rb : Path -> World -> res Err Body;
  (** [s3.download_file(bucket, key, filename)] *)
  s3_download_file : string -> string -> string -> World -> res Err unit * World;
  (** [s3.put_object(Bucket=, Key=, Body=, ACL=)] *)
  s3_put_object : string -> string -> Body -> string -> World -> res Err unit * World;
  (** [etree.XSLT(etree.XML(files("hls_vi_historical").joinpath("resources",
      "strip-urls.xslt").read_text(), None))]: reading the stylesheet of the
      package and compiling it *)
  xslt_load : World -> res Err Stylesheet;
  (** [etree.parse(p, None)] *)
  etree_parse : Path -> World -> res Err Document;
  (** [transform(doc)]: applying the compiled stylesheet *)
  xslt_apply : Stylesheet -> Document -> res Err Document;
  (** [result.write_c14n(p)] *)
  write_c14n : Path -> Document -> World -> res Err unit * World;
  (** [hls_manifest.main(args, standalone_mode=False)] *)
  hls_manifest_main : list string -> World -> res Err unit * World
}.

Section Pipeline.
Context `{Platform}.

(** The external calls that are recorded in the trace of a run. *)
Inductive event :=
  | EvDownload (src : Source) (dst : Path)
  | EvParse (p : Path)
  | EvWrite (p : Path) (content : Document)
  | EvPut (bucket key : string) (body : Body) (acl : string)
  | EvManifest (args : list string).

(** A computation returns or raises, leaves a new world, and emits the
    events of the external calls it made, oldest first.  [print] calls are
    not modelled. *)
Definition M (A : Type) : Type := World -> res Err A * World * list event.

Definition ret {A} (a : A) : M A := fun w => (Ok a, w, []).

Definition raise {A} (e : exn Err) : M A := fun w => (Raise e, w, []).

Definition bind {A B} (m : M A) (f : A -> M B) : M B :=
  fun w =>
    match m w with
    | (Ok a, w1, t1) => let '(r, w2, t2) := f a w1 in (r, w2, t1 ++ t2)
    | (Raise e, w1, t1) => (Raise e, w1, t1)
    end.

(** An external call that may change the world. *)
Definition call {A} (ev : event) (f : World -> res Err A * World) : M A :=
  fun w => let '(r, w') := f w in (r, w', [ev]).

(** An external call that only reads the world. *)
Definition read {A} (f : World -> res Err A) : M A := fun w => (f w, w, []).

(** A pure computation that may raise. *)
Definition lift {A} (r : res Err A) : M A := fun w => (r, w, []).

Notation "x <~ m ;; k" := (bind m (fun x => k))
  (at level 100, m at next level, right associativity, only parsing).

(** [for x in xs: body(x)] *)
Fixpoint for_each {A} (xs : list A) (body : A -> M unit) : M unit :=
  match xs with
  | [] => ret tt
  | x :: xs' => _ <~ body x ;; for_each xs' body
  end.

(** *** Downloaders *)

Definition Downloader : Type := Source -> Path -> World -> res Err unit * World.

Definition make_s3_downloader : Downloader :=
  fun src dst => let '(bucket, key) := src in s3_download_file bucket key (path_str dst).

(** *** The thread pool

    [executor.map(downloader, srcs, dsts)] submits one task per pair, in
    order.  Each task is taken to run atomically; a schedule lists the
    positions of the tasks that ran, in the order in which they ran.  A
    task that raises stores the exception in its future. *)
Fixpoint pool_run (downloader : Downloader) (tasks : list (Source * Path))
    (sched : list nat) (w : World)
    : list (nat * res Err unit) * World * list event :=
  match sched with
  | [] => ([], w, [])
  | i :: rest =>
      match tasks !! i with
      | None => pool_run downloader tasks rest w
      | Some (src, dst) =>
          let '(r, w1) := downloader src dst w in
          let '(futures, w2, evs) := pool_run downloader tasks rest w1 in
          ((i, r) :: futures, w2, EvDownload src dst :: evs)
      end
  end.

Fixpoint future_result (futures : list (nat * res Err unit)) (i : nat)
    : option (res Err unit) :=
  match futures with
  | [] => None
  | (j, r) :: rest => if decide (i = j) then Some r else future_result rest i
  end.

(** [list(executor.map(...))] takes the results in submission order and
    re-raises the first stored exception it meets.  [None]: a result was
    awaited from a task that never ran, which no execution does. *)
Fixpoint await (futures : list (nat * res Err unit)) (order : list nat)
    : option (res Err unit) :=
  match order with
  | [] => Some (Ok tt)
  | i :: rest =>
      match future_result futures i with
      | None => None
      | Some (Ok _) => await futures rest
      | Some (Raise e) => Some (Raise e)
      end
  end.

(** A schedule of [n] submitted tasks runs each task at most once.  Tasks
    that are absent from it were cancelled before they started, which
    happens only after a failure. *)
Definition admissible (n : nat) (sched : list nat) : Prop :=
  NoDup sched /\ Forall (fun i => i < n) sched.

#[global] Instance admissible_dec n sched : Decision (admissible n sched).
Proof. unfold admissible. apply _. Defined.

(** *** [download_files] *)

Definition basename (key : string) : string :=
  Str.slice_from (Str.rfind "/" key + 1) key.

Definition is_missing (w : World) (sd : Source * Path) : Prop :=
  path_exists sd.2 w = false.

#[global] Instance is_missing_dec w sd : Decision (is_missing w sd).
Proof. unfold is_missing. apply _. Defined.

(** [None] when [sched] is not an execution of the pool on this input. *)
Definition download_files (downloader : Downloader) (srcs : list Source)
    (dst_dir : Path) (sched : list nat) (w : World)
    : option (res Err (list Source * list Path) * World * list event) :=
  let src_names := (fun src : Source => basename src.2) <$> srcs in
  let dsts := (fun src_name => absolute (joinpath dst_dir src_name)) <$> src_names in
  let missing := filter (is_missing w) (zip srcs dsts) in
  let missing_srcs := missing.*1 in
  let missing_dsts := missing.*2 in
  if decide (admissible (length missing) sched) then
    let '(futures, w', evs) :=
      pool_run downloader (zip missing_srcs missing_dsts) sched w in
    match await futures (seq 0 (length missing)) with
    | None => None
    | Some (Raise e) => Some (Raise e, w', evs)
    | Some (Ok _) => Some (Ok (missing_srcs, missing_dsts), w', evs)
    end
  else None.

(** *** [strip_metadata_urls] *)

(** The stylesheet is loaded and compiled first; then the file is parsed,
    the transform applied and the result written to the same path.  Each of
    the four steps may raise.  The trace records the parse and the write of
    the metadata file. *)
Definition strip_metadata_urls (cmr_xml : Path) : M unit :=
  transform <~ read xslt_load ;;
  doc <~ call (EvParse cmr_xml) (fun w => (etree_parse cmr_xml w, w)) ;;
  result <~ lift (xslt_apply transform doc) ;;
  call (EvWrite cmr_xml result) (write_c14n cmr_xml result).

(** *** [prepare_inputs] *)

Definition prepare_inputs (granule_id : string) (dst_dir : Path)
    (sched : list nat) (w : World)
    : option (res Err unit * World * list event) :=
  let sources := granule_sources granule_id in
  match download_files make_s3_downloader sources dst_dir sched w with
  | None => None
  | Some (Raise e, w1, t1) => Some (Raise e, w1, t1)
  | Some (Ok _, w1, t1) =>
      let '(r, w2, t2) :=
        strip_metadata_urls (joinpath dst_dir (granule_id +:+ ".cmr.xml")) w1 in
      Some (r, w2, t1 ++ t2)
  end.

(** *** [create_manifest] *)

Definition create_manifest (job_id granule_id : string) (input_dir : Path)
    (bucket : string) : M Path :=
  key_prefix <~ lift (output_key_prefix granule_id) ;;
  match Str.split "/" key_prefix with
  | collection_suffix :: (_ :: _) as rest =>
      let vi_granule_id := default EmptyString (last rest) in
      let manifest_filename := vi_granule_id +:+ ".json" in
      let manifest_path := joinpath input_dir manifest_filename in
      let args :=
        [path_str input_dir;
         path_str manifest_path;
         "s3://" +:+ bucket +:+ "/" +:+ key_prefix;
         "HLS" +:+ collection_suffix;
         vi_granule_id;
         job_id;
         "false"] in
      _ <~ call (EvManifest args) (hls_manifest_main args) ;;
      ret manifest_path
  | _ => raise ValueError
  end.

(** *** [upload_outputs] *)

Definition acl_of (debug : bool) : string :=
  if debug then "public-read" else "private".

Definition upload_file (bucket key : string) (src : Path) (acl : string) : M unit :=
  body <~ read (open_rb src) ;;
  call (EvPut bucket key body acl) (s3_put_object bucket key body acl).

Definition upload_outputs (job_id granule_id : string) (output_dir : Path)
    (bucket : string) (debug : bool) : M unit :=
  key_prefix <~ lift (output_key_prefix granule_id) ;;
  let acl := acl_of debug in
  entries <~ read (iterdir output_dir) ;;
  _ <~ for_each entries (fun src =>
         let key := key_prefix +:+ "/" +:+ path_name src in
         upload_file bucket key src acl) ;;
  src <~ create_manifest job_id granule_id output_dir bucket ;;
  let key := key_prefix +:+ "/" +:+ path_name src in
  upload_file bucket key src acl.

End Pipeline.

(** ** A small concrete platform

    A test double used to run the pipeline on concrete inputs: the world is
    the local disk, a list of (absolute path, content) entries in which the
    first entry of a path is the current one. *)

Module Toy.

Definition disk : Type := list (string * string).

Fixpoint content_at (p : string) (w : disk) : option string :=
  match w with
  | [] => None
  | (q, c) :: w' => if String.eqb p q then Some c else content_at p w'
  end.

Definition exists_on (p : string) (w : disk) : bool :=
  match content_at p w with Some _ => true | None => false end.

Definition write (p c : string) (w : disk) : disk := (p, c) :: w.

Fixpoint paths (w : disk) : list string :=
  match w with
  | [] => []
  | (p, _) :: w' => p :: List.filter (fun q => negb (String.eqb q p)) (paths w')
  end.

Definition listdir (d : string) (w : disk) : list string :=
  List.filter (String.prefix (d +:+ "/")) (paths w).

Definition read_at {A} (p : string) (k : string -> A) (w : disk) : res string A :=
  match content_at p w with
  | Some c => Ok (k c)
  | None => Raise (External "FileNotFoundError")
  end.

(** The object store holds every key except those of the bucket [nowhere]
    and those of the tile [T00AAA]. *)
Definition fetch (bucket key filename : string) (w : disk)
    : res string unit * disk :=
  if String.eqb bucket "nowhere" then (Raise (External "NoSuchBucket"), w)
  else if Str.startswith key "HLSS30.020/HLS.S30.T00AAA"
  then (Raise (External "NoSuchKey"), w)
  else (Ok tt, write filename ("s3://" +:+ bucket +:+ "/" +:+ key) w).

(** The stylesheet of the test double leaves a document as it is; it cannot
    be applied to an empty document. *)
Definition transform (doc : string) : res string string :=
  match doc with
  | EmptyString => Raise (External "XSLTApplyError")
  | _ => Ok doc
  end.

Definition generate_manifest (args : list string) (w : disk)
    : res string unit * disk :=
  match args with
  | _ :: manifest_path :: _ => (Ok tt, write manifest_path "{}" w)
  | _ => (Raise (External "UsageError"), w)
  end.

Definition platform : Platform := {|
  World := disk;
  Path := string;
  Body := string;
  Err := string;
  Stylesheet := unit;
  Document := string;
  joinpath := fun d n => d +:+ "/" +:+ n;
  absolute := fun p => p;
  path_name := fun p => Str.slice_from (Str.rfind "/" p + 1) p;
  path_str := fun p => p;
  path_exists := exists_on;
  iterdir := fun d w => Ok (listdir d w);
  open_rb := fun p => read_at p (fun c => c);
  s3_download_file := fetch;
  s3_put_object := fun bucket _ _ _ w =>
    if String.eqb bucket "read-only" then (Raise (External "AccessDenied"), w)
    else (Ok tt, w);
  xslt_load := fun _ => Ok tt;
  etree_parse := fun p => read_at p (fun c => c);
  xslt_apply := fun _ => transform;
  write_c14n := fun p c w => (Ok tt, write p c w);
  hls_manifest_main := generate_manifest
|}.

Definition granule : string := "HLS.L30.T58UFF.2025105T234951.v2.0".
Definition input_dir : string := "/var/scratch/job-1/hls".
Definition output_dir : string := "/var/scratch/job-1/hls-vi".

(** An output directory holding two produced files. *)
Definition produced : disk :=
  [("/var/scratch/job-1/hls-vi/HLS-VI.L30.T58UFF.2025105T234951.v2.0.NDVI.tif", "ndvi");
   ("/var/scratch/job-1/hls-vi/HLS-VI.L30.T58UFF.2025105T234951.v2.0.cmr.xml",
    "<Granule></Granule>")].

(** An input directory in which one of two wanted files is present. *)
Definition wanted : list Source :=
  [("lp-prod-protected", "HLSL30.020/G/G.B02.tif");
   ("lp-prod-protected", "HLSL30.020/G/G.B03.tif")].
Definition partly_fetched : disk :=
  [("/var/scratch/job-1/hls/G.B03.tif", "raster")].

(** Three sources, the second of which cannot be fetched. *)
Definition unreachable : list Source :=
  [("lp-prod-protected", "x/y/a.tif"); ("nowhere", "q/b.tif");
   ("lp-prod-protected", "c.tif")].

End Toy.

(** ** Notions used by the statements *)

Section Notions.
Context `{Platform}.

(** The local path of a source: [(dst_dir / basename(key)).absolute()]. *)
Definition local_path (dst_dir : Path) (src : Source) : Path :=
  absolute (joinpath dst_dir (basename src.2)).

(** The tasks [download_files] submits in world [w]: the sources whose
    local path does not exist, with that path, in source order. *)
Definition missing_tasks (w : World) (srcs : list Source) (dst_dir : Path)
    : list (Source * Path) :=
  filter (is_missing w) ((fun src => (src, local_path dst_dir src)) <$> srcs).

(** A downloader that, when it returns, has written its destination and
    has removed nothing. *)
Definition writes_destination (d : Downloader) : Prop :=
  forall src dst w w',
    d src dst w = (Ok tt, w') ->
    path_exists dst w' = true /\
    forall p, path_exists p w = true -> path_exists p w' = true.

(** A downloader that removes nothing, whether it returns or raises. *)
Definition keeps_files (d : Downloader) : Prop :=
  forall src dst w r w' p,
    d src dst w = (r, w') -> path_exists p w = true -> path_exists p w' = true.

Definition is_download (ev : event) : bool :=
  match ev with EvDownload _ _ => true | _ => false end.

Definition is_put (ev : event) : bool :=
  match ev with EvPut _ _ _ _ => true | _ => false end.

Definition download_of (tasks : list (Source * Path)) (i : nat) : option event :=
  (fun sd : Source * Path => EvDownload sd.1 sd.2) <$> tasks !! i.

(** The upload of the file [sb.1], opened as [sb.2], under [key_prefix]. *)
Definition artifact_put (bucket key_prefix acl : string) (sb : Path * Body) : event :=
  EvPut bucket (key_prefix +:+ "/" +:+ path_name sb.1) sb.2 acl.

(** Starting in [w], each file of [sbs] was opened, giving the paired body,
    and its [put_object] under [key_prefix] returned; [w'] is the world the
    last of them left. *)
Fixpoint uploaded (bucket key_prefix acl : string) (w : World)
    (sbs : list (Path * Body)) (w' : World) : Prop :=
  match sbs with
  | [] => w' = w
  | (src, body) :: rest =>
      open_rb src w = Ok body /\
      exists w1,
        s3_put_object bucket (key_prefix +:+ "/" +:+ path_name src) body acl w = (Ok tt, w1) /\
        uploaded bucket key_prefix acl w1 rest w'
  end.

End Notions.

(** ** Further notions *)

(** The suffixes [granule_sources] appends to the key stem, in order. *)
Definition source_suffixes (i : Instrument) : list string :=
  ".jpg" :: ((fun band => "." +:+ band +:+ ".tif") <$> band_names i)
  ++ [".Fmask.tif"; ".cmr.xml"].

(** The instrument branch [granule_sources] takes on a string. *)
Definition branch_of (granule_id : string) : Instrument :=
  if Str.startswith granule_id "HLS.L30" then L30 else S30.

(** ** The generators, the process environment and [main] *)

(** What [create_outputs] and [main] call besides the platform: the three
    generators of the package [hls_vi], directory creation and the creation
    of the S3 client. *)
Class Runtime `{Platform} := {
  (** [Path(s)] *)
  path_of : string -> Path;
  (** [p.mkdir(parents=True, exist_ok=True)] *)
  mkdir_parents : Path -> World -> res Err unit * World;
  (** [boto3.client("s3")] *)
  boto3_client : World -> res Err unit * World;
  (** [generate_vi_granule(input_dir, output_dir, granule_id)] *)
  generate_vi_granule : Path -> Path -> string -> World -> res Err unit * World;
  (** [generate_metadata(input_dir, output_dir)] *)
  generate_metadata : Path -> Path -> World -> res Err unit * World;
  (** [create_item(hls_vi_metadata=, out_json=, endpoint=, version=)] *)
  create_item : string -> string -> string -> string -> World -> res Err unit * World
}.

Section Driver.
Context `{Runtime}.

(** The steps of a run of [main]: the events of the core functions and the
    calls of the runtime. *)
Inductive step :=
  | Core (ev : event)
  | StMkdir (p : Path)
  | StClient
  | StGenerateVI (input_dir output_dir : Path) (granule_id : string)
  | StGenerateMetadata (input_dir output_dir : Path)
  | StCreateItem (hls_vi_metadata out_json endpoint version : string).

(** Computations of the driver; [None] as for [download_files]. *)
Definition D (A : Type) : Type := World -> option (res Err A * World * list step).

Definition dret {A} (a : A) : D A := fun w => Some (Ok a, w, []).

Definition dbind {A B} (m : D A) (f : A -> D B) : D B :=
  fun w =>
    match m w with
    | None => None
    | Some (Ok a, w1, t1) =>
        match f a w1 with
        | None => None
        | Some (r, w2, t2) => Some (r, w2, t1 ++ t2)
        end
    | Some (Raise e, w1, t1) => Some (Raise e, w1, t1)
    end.

Definition dcall {A} (st : step) (f : World -> res Err A * World) : D A :=
  fun w => let '(r, w') := f w in Some (r, w', [st]).

(** A core computation as a step of the driver. *)
Definition core {A} (m : M A) : D A :=
  fun w => let '(r, w', evs) := m w in Some (r, w', Core <$> evs).

Definition core_scheduled {A} (m : World -> option (res Err A * World * list event))
    : D A :=
  fun w =>
    match m w with
    | None => None
    | Some (r, w', evs) => Some (r, w', Core <$> evs)
    end.

Notation "x <~ m ;; k" := (dbind m (fun x => k))
  (at level 100, m at next level, right associativity, only parsing).

(** *** [create_outputs] *)

Definition create_outputs (granule_id : string) (input_dir output_dir : Path) : D unit :=
  _ <~ dcall (StGenerateVI input_dir output_dir granule_id)
         (generate_vi_granule input_dir output_dir granule_id) ;;
  let vi_granule_id := Str.replace_first "HLS" "HLS-VI" granule_id in
  let hls_vi_cmr_xml_path := joinpath output_dir (vi_granule_id +:+ ".cmr.xml") in
  let hls_vi_stac_json_path := joinpath output_dir (vi_granule_id +:+ "_stac.json") in
  _ <~ dcall (StGenerateMetadata input_dir output_dir)
         (generate_metadata input_dir output_dir) ;;
  dcall (StCreateItem (path_str hls_vi_cmr_xml_path) (path_str hls_vi_stac_json_path)
           "data.lpdaac.earthdatacloud.nasa.gov" "020")
        (create_item (path_str hls_vi_cmr_xml_path) (path_str hls_vi_stac_json_path)
           "data.lpdaac.earthdatacloud.nasa.gov" "020").

(** *** [main] *)

(** How a run of [main] ends: it returns, or [os.environ[name]] raises
    [KeyError], or a stage raises. *)
Inductive main_outcome :=
  | Returned
  | KeyError (name : string)
  | Raised (e : exn Err).

(** The stages of [main], once the environment has been read. *)
Definition main_stages (job_id granule_id output_bucket : string) (debug : bool)
    (sched : list nat) : D unit :=
  let working_dir := joinpath (joinpath (path_of "/var") "scratch") job_id in
  let input_dir := joinpath working_dir "hls" in
  _ <~ dcall (StMkdir input_dir) (mkdir_parents input_dir) ;;
  let output_dir := joinpath working_dir "hls-vi" in
  _ <~ dcall (StMkdir output_dir) (mkdir_parents output_dir) ;;
  _ <~ dcall StClient boto3_client ;;
  _ <~ core_scheduled (prepare_inputs granule_id input_dir sched) ;;
  _ <~ create_outputs granule_id input_dir output_dir ;;
  core (upload_outputs job_id granule_id output_dir output_bucket debug).

(** [os.environ] is a mapping from names to values.  The default of
    [os.environ.get("DEBUG_BUCKET", os.environ["OUTPUT_BUCKET"])] is an
    argument of the call and is evaluated before it. *)
Definition main (environ : gmap string string) (sched : list nat) (w : World)
    : option (main_outcome * World * list step) :=
  match environ !! "AWS_BATCH_JOB_ID" with
  | None => Some (KeyError "AWS_BATCH_JOB_ID", w, [])
  | Some job_id =>
      match environ !! "GRANULE_ID" with
      | None => Some (KeyError "GRANULE_ID", w, [])
      | Some granule_id =>
          match environ !! "OUTPUT_BUCKET" with
          | None => Some (KeyError "OUTPUT_BUCKET", w, [])
          | Some default_bucket =>
              let output_bucket := default default_bucket (environ !! "DEBUG_BUCKET") in
              let debug := bool_decide (environ !! "DEBUG_BUCKET" <> None) in
              match main_stages job_id granule_id output_bucket debug sched w with
              | None => None
              | Some (Ok _, w', steps) => Some (Returned, w', steps)
              | Some (Raise e, w', steps) => Some (Raised e, w', steps)
              end
          end
      end
  end.

Definition is_upload (st : step) : bool :=
  match st with Core (EvPut _ _ _ _) => true | _ => false end.

(** An event that, if it is an upload, goes to [bucket] with ACL [acl]. *)
Definition in_mode (bucket acl : string) (ev : event) : Prop :=
  match ev with
  | EvPut b _ _ a => b = bucket /\ a = acl
  | _ => True
  end.

End Driver.

(** The runtime of the concrete platform: every call returns. *)
Definition Toy_runtime : Runtime (H:=Toy.platform) :=
  @Build_Runtime Toy.platform
    (fun s : string => s)
    (fun (_ : string) (w : Toy.disk) => (Ok tt, w))
    (fun w : Toy.disk => (Ok tt, w))
    (fun (_ output_dir : string) (granule_id : string) (w : Toy.disk) =>
       (Ok tt, Toy.write (output_dir +:+ "/" +:+ Str.replace_first "HLS" "HLS-VI" granule_id
                            +:+ ".NDVI.tif") "ndvi" w))
    (fun (_ _ : string) (w : Toy.disk) => (Ok tt, w))
    (fun (_ out_json _ _ : string) (w : Toy.disk) => (Ok tt, Toy.write out_json "{}" w)).

(** An environment of a production run, and one of a debug run in which
    [OUTPUT_BUCKET] is not set. *)
Definition production_environ : gmap string string :=
  {[ "AWS_BATCH_JOB_ID" := "job-1"; "GRANULE_ID" := "HLS.L30.T58UFF.2025105T234951.v2.0";
     "OUTPUT_BUCKET" := "lp-prod-output" ]}.

Definition debug_only_environ : gmap string string :=
  {[ "AWS_BATCH_JOB_ID" := "job-1"; "GRANULE_ID" := "HLS.L30.T58UFF.2025105T234951.v2.0";
     "DEBUG_BUCKET" := "scratch-bucket" ]}.

(** An environment whose [GRANULE_ID] is not a granule identifier. *)
Definition malformed_environ : gmap string string :=
  {[ "AWS_BATCH_JOB_ID" := "job-1"; "GRANULE_ID" := "not-a-granule";
     "OUTPUT_BUCKET" := "lp-prod-output" ]}.

(** ** The development script [scripts/bootstrap-minio.py] *)

(** What the script calls besides the platform: [requests] and the S3
    client of the local MinIO server, with the exception classes the script
    tests for. *)
Class DevStore `{Platform} := {
  Response : Type;
  (** [isinstance(e, s3.exceptions.BucketAlreadyExists)] *)
  is_bucket_already_exists : Err -> bool;
  (** [isinstance(e, s3.exceptions.BucketAlreadyOwnedByYou)] *)
  is_bucket_already_owned_by_you : Err -> bool;
  (** [isinstance(e, s3.exceptions.ClientError)] *)
  is_client_error : Err -> bool;
  (** [s3.create_bucket(Bucket=)] *)
  s3_create_bucket : string -> World -> res Err unit * World;
  (** [s3.head_object(Bucket=, Key=)] *)
  s3_head_object : string -> string -> World -> res Err unit * World;
  (** [session.get(url, stream=True)] *)
  session_get : string -> World -> res Err Response * World;
  (** [r.raise_for_status()] *)
  raise_for_status : Response -> res Err unit;
  (** [open(dst, "wb")] and the loop that writes [r.iter_content(...)] to it *)
  save_content : Response -> Path -> World -> res Err unit * World;
  (** [s3.put_object(Bucket=, Key=, Body=)] *)
  s3_put_object_default : string -> string -> Body -> World -> res Err unit * World
}.

Section Script.
Context `{DevStore}.

Inductive dev_event :=
  | DevCreateBucket (bucket : string)
  | DevHeadObject (bucket key : string)
  | DevGet (url : string)
  | DevSave (dst : Path)
  | DevPut (bucket key : string) (body : Body).

Definition Dev (A : Type) : Type := World -> res Err A * World * list dev_event.


Definition sbind {A B} (m : Dev A) (f : A -> Dev B) : Dev B :=
  fun w =>
    match m w with
    | (Ok a, w1, t1) => let '(r, w2, t2) := f a w1 in (r, w2, t1 ++ t2)
    | (Raise e, w1, t1) => (Raise e, w1, t1)
    end.

Definition scall {A} (ev : dev_event) (f : World -> res Err A * World) : Dev A :=
  fun w => let '(r, w') := f w in (r, w', [ev]).

Notation "x <~ m ;; k" := (sbind m (fun x => k))
  (at level 100, m at next level, right associativity, only parsing).

(** *** [http_download] *)

Definition http_download (src : Source) (dst : Path) : Dev unit :=
  fun w =>
    if path_exists dst w then (Ok tt, w, [])
    else
      let '(bucket, key) := src in
      let url := "https://data.lpdaac.earthdatacloud.nasa.gov/" +:+ bucket +:+ "/" +:+ key in
      (r <~ scall (DevGet url) (session_get url) ;;
       _ <~ (fun w1 => (raise_for_status r, w1, [])) ;;
       scall (DevSave dst) (save_content r dst)) w.

(** *** [make_downloader] *)

Definition transfer (src : Source) (dst : Path) : Dev unit :=
  let '(bucket, key) := src in
  _ <~ http_download src dst ;;
  body <~ (fun w => (open_rb dst w, w, [])) ;;
  scall (DevPut bucket key body) (s3_put_object_default bucket key body).

Definition make_downloader : Downloader :=
  fun src dst w => let '(r, w', _) := transfer src dst w in (r, w').

(** *** [ensure_buckets] *)



(** *** [object_exists] *)

Definition object_exists (obj : Source) : Dev bool :=
  let '(bucket, key) := obj in
  fun w =>
    match scall (DevHeadObject bucket key) (s3_head_object bucket key) w with
    | (Ok _, w1, t1) => (Ok true, w1, t1)
    | (Raise (External e), w1, t1) =>
        if is_client_error e then (Ok false, w1, t1) else (Raise (External e), w1, t1)
    | (Raise e, w1, t1) => (Raise e, w1, t1)
    end.

End Script.

(** A local store on the concrete platform: the bucket [taken] exists
    already, and creating a bucket named [denied] is refused. *)
Definition Toy_store : DevStore (H:=Toy.platform) :=
  @Build_DevStore Toy.platform string
    (fun e : string => String.eqb e "BucketAlreadyExists")
    (fun e : string => String.eqb e "BucketAlreadyOwnedByYou")
    (fun _ : string => true)
    (fun (bucket : string) (w : Toy.disk) =>
       if String.eqb bucket "taken" then (Raise (External "BucketAlreadyOwnedByYou"), w)
       else if String.eqb bucket "denied" then (Raise (External "AccessDenied"), w)
       else (Ok tt, w))
    (fun (_ _ : string) (w : Toy.disk) => (Ok tt, w))
    (fun (url : string) (w : Toy.disk) =>
       if String.prefix "https://data.lpdaac.earthdatacloud.nasa.gov/nowhere/" url
       then (Raise (External "ConnectionError"), w) else (Ok url, w))
    (fun _ : string => Ok tt)
    (fun (r dst : string) (w : Toy.disk) => (Ok tt, Toy.write dst r w))
    (fun (_ _ _ : string) (w : Toy.disk) => (Ok tt, w)).

(** * Properties *)

(** ** Strings *)

#[local] Arguments String.append !_ _ / : simpl nomatch.

Module StrFacts.
Import Str.

Lemma app_assoc (a b c : string) : (a +:+ b) +:+ c = a +:+ (b +:+ c).
Proof. induction a as [|x a IH]; simpl; [done | by rewrite IH]. Qed.

Lemma app_nil_r (a : string) : a +:+ "" = a.
Proof. induction a as [|x a IH]; simpl; [done | by rewrite IH]. Qed.

Lemma length_app (a b : string) :
  String.length (a +:+ b) = String.length a + String.length b.
Proof. induction a as [|x a IH]; simpl; [done | by rewrite IH]. Qed.

Lemma prefix_app (p s : string) : String.prefix p (p +:+ s) = true.
Proof.
  induction p as [|x p IH]; simpl; [by destruct s |].
  destruct (ascii_dec x x); [done | congruence].
Qed.

Lemma prefix_inv (p s : string) :
  String.prefix p s = true -> exists t, s = p +:+ t.
Proof.
  revert s; induction p as [|x p IH]; intros s Hp.
  - by exists s.
  - destruct s as [|y s]; simpl in Hp; [done |].
    destruct (ascii_dec x y) as [->|]; [| done].
    destruct (IH _ Hp) as [t ->]. by exists t.
Qed.

Lemma drop_app (p s : string) : drop (String.length p) (p +:+ s) = s.
Proof. induction p as [|x p IH]; simpl; [by destruct s | done]. Qed.

Lemma replace_first_prefix (old new s : string) :
  replace_first old new (old +:+ s) = new +:+ s.
Proof.
  assert (forall t, replace_first old new t =
            if String.prefix old t then new +:+ drop (String.length old) t
            else match t with
                 | EmptyString => EmptyString
                 | String a t' => String a (replace_first old new t')
                 end) as Hunfold by (by intros []).
  by rewrite Hunfold, prefix_app, drop_app.
Qed.

Lemma split_nonempty (c : ascii) (s : string) : split c s <> [].
Proof.
  induction s as [|a s IH]; simpl; [done |].
  destruct (Ascii.eqb a c); [done |]. by destruct (split c s).
Qed.

Lemma split_join (c : ascii) (s : string) : join c (split c s) = s.
Proof.
  unfold join. induction s as [|a s IH]; simpl; [done |].
  destruct (Ascii.eqb_spec a c) as [->|Hne].
  - pose proof (split_nonempty c s) as Hs.
    destruct (split c s) as [|f fs]; [done |]. simpl in *. by rewrite IH.
  - pose proof (split_nonempty c s) as Hs.
    destruct (split c s) as [|f fs]; [done |].
    destruct fs; simpl in *; by rewrite <- IH.
Qed.

Lemma split_fields_lack (c : ascii) (s : string) :
  Forall (fun f => lacks c f = true) (split c s).
Proof.
  induction s as [|a s IH]; simpl; [by repeat constructor |].
  destruct (Ascii.eqb a c) eqn:E; [by constructor |].
  destruct (split c s) as [|f fs]; [repeat constructor; simpl; by rewrite E |].
  inversion IH; subst. constructor; [| done]. simpl. by rewrite E.
Qed.

Lemma split_field (c : ascii) (f s : string) :
  lacks c f = true -> split c (f +:+ String c s) = f :: split c s.
Proof.
  induction f as [|a f IH]; simpl; intros Hf.
  - by rewrite Ascii.eqb_refl.
  - apply andb_true_iff in Hf as [Ha Hf]. apply negb_true_iff in Ha.
    by rewrite Ha, IH.
Qed.

Lemma join_cons_prefix (c : ascii) (p v : string) (rest : list string) :
  join c ((p +:+ v) :: rest) = p +:+ join c (v :: rest).
Proof.
  unfold join. destruct rest as [|r rest]; [done |].
  change (((p +:+ v) +:+ String c "" +:+ String.concat (String c "") (r :: rest))
          = p +:+ v +:+ String c "" +:+ String.concat (String c "") (r :: rest)).
  apply app_assoc.
Qed.

Lemma join_cons (c : ascii) (f : string) (fs : list string) :
  fs <> [] -> join c (f :: fs) = f +:+ String c (join c fs).
Proof. unfold join. by destruct fs. Qed.

Lemma lacks_app (c : ascii) (a b : string) :
  lacks c (a +:+ b) = lacks c a && lacks c b.
Proof. induction a as [|x a IH]; simpl; [done | by rewrite IH, andb_assoc]. Qed.

Lemma rfind_lacks (c : ascii) (s : string) :
  lacks c s = true -> rfind c s = (-1)%Z.
Proof.
  induction s as [|a s IH]; simpl; [done |]. intros Hs.
  apply andb_true_iff in Hs as [Ha Hs]. apply negb_true_iff in Ha.
  by rewrite (IH Hs), Ha.
Qed.

Lemma rfind_range (c : ascii) (s : string) :
  (-1 <= rfind c s < Z.of_nat (String.length s))%Z.
Proof.
  induction s as [|a s IH]; simpl String.length; simpl rfind; [lia |].
  destruct (Z.leb_spec 0 (rfind c s)); [lia |].
  destruct (Ascii.eqb a c); lia.
Qed.

(** [s[s.rfind(c) + 1:]] is the part of [s] after its last [c], and all of
    [s] when [c] does not occur. *)
Lemma after_last (c : ascii) (s : string) :
  let b := slice_from (rfind c s + 1) s in
  lacks c b = true /\
  (if lacks c s then s = b else exists d, s = d +:+ String c b).
Proof.
  unfold slice_from. induction s as [|a s IH]; [done |].
  simpl rfind. simpl lacks.
  destruct IH as [IHb IHs].
  pose proof (rfind_range c s) as Hr.
  destruct (Z.leb_spec 0 (rfind c s)) as [Hge|Hlt].
  - replace (Z.to_nat (rfind c s + 1 + 1)) with (S (Z.to_nat (rfind c s + 1))) by lia.
    simpl drop. split; [done |].
    destruct (lacks c s) eqn:El.
    + rewrite (rfind_lacks _ _ El) in Hge. lia.
    + rewrite andb_false_r. destruct IHs as [d Hd]. exists (String a d).
      simpl. by rewrite <- Hd.
  - assert (rfind c s = (-1)%Z) as Hm by lia. rewrite Hm in *. simpl in IHb.
    destruct (Ascii.eqb_spec a c) as [->|Hne]; simpl.
    + split; [done |]. by exists "".
    + apply Ascii.eqb_neq in Hne. rewrite ?Hne, ?IHb. simpl. by rewrite ?Hne, ?IHb.
Qed.

End StrFacts.

(** ** Granule identifiers *)

Section GranuleIdFacts.
Context {Err : Type}.
Import Str StrFacts.

Lemma Instrument_parse_name (i : Instrument) :
  Instrument_parse (Instrument_name i) = Some i.
Proof. by destruct i. Qed.

Lemma Instrument_parse_inv (s : string) (i : Instrument) :
  Instrument_parse s = Some i -> s = Instrument_name i.
Proof.
  unfold Instrument_parse.
  destruct (String.eqb_spec s "L30") as [->|_]; [by intros [= <-] |].
  destruct (String.eqb_spec s "S30") as [->|_]; [by intros [= <-] | done].
Qed.

(** The only exception the parser raises is [MalformedGranuleId]. *)
Lemma from_string_raises (s : string) (e : exn Err) :
  GranuleId_from_string s = Raise e -> e = MalformedGranuleId.
Proof.
  unfold GranuleId_from_string.
  repeat case_match; congruence.
Qed.

(** A string that parses has the identifier format, and the parsed fields
    are its fields. *)
Lemma from_string_inv (s : string) (g : GranuleId) :
  GranuleId_from_string (Err:=Err) s = Ok g ->
  exists ver,
    lacks "." (tile_id g) = true /\ lacks "." (acquisition_date g) = true /\
    version g = "v" +:+ ver /\
    s = "HLS." +:+ Instrument_name (instrument g) +:+ "." +:+ tile_id g
        +:+ "." +:+ acquisition_date g +:+ ".v" +:+ ver.
Proof.
  unfold GranuleId_from_string. intros Hp.
  pose proof (split_join "." s) as Hj.
  pose proof (split_fields_lack "." s) as Hl.
  destruct (split "." s) as [|hls [|instr [|tile [|acq [|v rest]]]]]; try done.
  destruct (String.eqb_spec hls "HLS") as [->|]; [| done]. simpl in Hp.
  destruct (startswith v "v") eqn:Hv; [| done].
  destruct (Instrument_parse instr) as [i|] eqn:Hi; [| done].
  apply Instrument_parse_inv in Hi as ->.
  apply prefix_inv in Hv as [ver ->].
  injection Hp as <-. cbn [instrument tile_id acquisition_date version].
  exists (join "." (ver :: rest)).
  repeat (apply Forall_cons_1 in Hl as [? Hl]).
  repeat split; try done.
  - apply (join_cons_prefix "." "v" ver rest).
  - rewrite <- Hj. rewrite !join_cons by done.
    by rewrite (join_cons_prefix "." "v" ver rest).
Qed.

(** Conversely every string of the identifier format parses. *)
Lemma from_string_complete (i : Instrument) (tile acq ver : string) :
  lacks "." tile = true -> lacks "." acq = true ->
  GranuleId_from_string (Err:=Err)
    ("HLS." +:+ Instrument_name i +:+ "." +:+ tile +:+ "." +:+ acq +:+ ".v" +:+ ver)
  = Ok {| instrument := i; tile_id := tile; acquisition_date := acq;
          version := "v" +:+ ver |}.
Proof.
  intros Ht Ha. unfold GranuleId_from_string.
  change (split "." _) with
    (split "." ("HLS" +:+ String "." (Instrument_name i +:+ String "."
       (tile +:+ String "." (acq +:+ String "." ("v" +:+ ver)))))).
  rewrite (split_field "." "HLS") by done.
  rewrite (split_field "." (Instrument_name i)) by (by destruct i).
  rewrite (split_field "." tile) by done.
  rewrite (split_field "." acq) by done.
  pose proof (split_join "." ("v" +:+ ver)) as Hj.
  destruct (split "." ("v" +:+ ver)) as [|v rest] eqn:Hs; [by apply split_nonempty in Hs |].
  assert (startswith v "v" = true) as Hv.
  { simpl in Hs. destruct (split "." ver) as [|f fs]; injection Hs as <- _;
      [done | by destruct f]. }
  simpl. rewrite Hv, Instrument_parse_name. by rewrite Hj.
Qed.

Lemma from_string_well_formed (s : string) :
  (exists g, GranuleId_from_string (Err:=Err) s = Ok g) <-> well_formed s.
Proof.
  split.
  - intros [g Hg]. apply from_string_inv in Hg as (ver & ? & ? & _ & ->).
    by exists (instrument g), (tile_id g), (acquisition_date g), ver.
  - intros (i & tile & acq & ver & ? & ? & ->).
    eexists. by apply from_string_complete.
Qed.

Lemma slice_to_prefix (n : nat) (s : string) :
  exists rest, s = slice_to n s +:+ rest.
Proof.
  unfold slice_to. revert s. induction n as [|n IH]; intros s.
  - exists s. by destruct s.
  - destruct s as [|a s]; [by exists "" |].
    destruct (IH s) as [rest Hr]. exists rest. simpl. by rewrite <- Hr.
Qed.

Lemma slice_to_length (n : nat) (s : string) :
  n <= String.length s -> String.length (slice_to n s) = n.
Proof.
  unfold slice_to. revert s. induction n as [|n IH]; intros s Hn.
  - by destruct s.
  - destruct s as [|a s]; simpl in *; [lia |]. rewrite IH; lia.
Qed.

End GranuleIdFacts.

(** ** Source resolution and output keys *)

Section ResolverFacts.
Context {Err : Type}.
Import Str StrFacts.

Lemma startswith_instrument (i : Instrument) (rest : string) :
  startswith ("HLS." +:+ Instrument_name i +:+ "." +:+ rest) "HLS.L30"
  = match i with L30 => true | S30 => false end.
Proof. by destruct i. Qed.

Lemma granule_sources_branch (s : string) :
  granule_sources s
  = expected_sources (if startswith s "HLS.L30" then L30 else S30) s.
Proof. unfold granule_sources. by destruct (startswith s "HLS.L30"). Qed.

Lemma expected_sources_length (i : Instrument) (s : string) :
  length (expected_sources i s) = 9.
Proof. by destruct i. Qed.

Lemma expected_sources_buckets (i : Instrument) (s : string) :
  (expected_sources i s).*1 = "lp-prod-public" :: replicate 8 "lp-prod-protected".
Proof. by destruct i. Qed.

(** C1. For every valid granule identifier, [granule_sources] returns the
    nine locators of its instrument in the fixed order: the browse jpg in the
    public bucket, then in the protected bucket one tif per band of the
    instrument's band set in declaration order, then the Fmask tif, then the
    cmr.xml. *)
Theorem granule_sources_of_valid_id (s : string) (g : GranuleId) :
  GranuleId_from_string (Err:=Err) s = Ok g ->
  granule_sources s = expected_sources (instrument g) s /\
  length (granule_sources s) = 9 /\
  (granule_sources s).*1 = "lp-prod-public" :: replicate 8 "lp-prod-protected" /\
  length (band_names (instrument g)) = 6.
Proof.
  intros Hg. apply from_string_inv in Hg as (ver & _ & _ & _ & Hs).
  assert (granule_sources s = expected_sources (instrument g) s) as ->.
  { rewrite granule_sources_branch. rewrite Hs at 1.
    rewrite startswith_instrument. by destruct (instrument g). }
  split; [done |].
  split; [apply expected_sources_length |].
  split; [apply expected_sources_buckets |].
  by destruct (instrument g).
Qed.

(** C10. For every string that does not start with ["HLS.L30"], valid
    identifier or not, [granule_sources] raises nothing and returns the
    S30-shaped result. *)
Theorem granule_sources_defaults_to_S30 (s : string) :
  startswith s "HLS.L30" = false ->
  granule_sources_outcome (Err:=Err) s = Ok (expected_sources S30 s) /\
  length (granule_sources s) = 9.
Proof.
  intros Hs. unfold granule_sources_outcome.
  rewrite granule_sources_branch, Hs.
  split; [done | apply expected_sources_length].
Qed.

(** C3. [output_key_prefix] yields the documented keys for the two example
    granules; for every valid identifier the result is
    ["{instrument}_VI/data/{yyyyddd}/{vi_granule_id}"], where [yyyyddd] is
    the prefix of at most seven characters of the acquisition timestamp and
    [vi_granule_id] is the identifier with its first ["HLS"], which is its
    head, replaced by ["HLS-VI"]. *)
Theorem output_key_prefix_derivation :
  output_key_prefix (Err:=Err) "HLS.L30.T58UFF.2025105T234951.v2.0"
    = Ok "L30_VI/data/2025105/HLS-VI.L30.T58UFF.2025105T234951.v2.0" /\
  output_key_prefix (Err:=Err) "HLS.S30.T59VNH.2025105T234641.v2.0"
    = Ok "S30_VI/data/2025105/HLS-VI.S30.T59VNH.2025105T234641.v2.0" /\
  forall (s : string) (g : GranuleId),
    GranuleId_from_string (Err:=Err) s = Ok g ->
    let yyyyddd := slice_to 7 (acquisition_date g) in
    let vi_granule_id := replace_first "HLS" "HLS-VI" s in
    output_key_prefix (Err:=Err) s
      = Ok (Instrument_name (instrument g) +:+ "_VI/data/" +:+ yyyyddd
            +:+ "/" +:+ vi_granule_id) /\
    (exists rest, acquisition_date g = yyyyddd +:+ rest) /\
    (7 <= String.length (acquisition_date g) -> String.length yyyyddd = 7) /\
    (exists tail, s = "HLS" +:+ tail /\ vi_granule_id = "HLS-VI" +:+ tail).
Proof.
  split; [done |]. split; [done |].
  intros s g Hg yyyyddd vi_granule_id.
  split; [unfold output_key_prefix; by rewrite Hg |].
  split; [apply slice_to_prefix |].
  split; [apply slice_to_length |].
  apply from_string_inv in Hg as (ver & _ & _ & _ & Hs).
  eexists. split.
  - rewrite Hs. change ("HLS." +:+ ?x) with ("HLS" +:+ "." +:+ x). done.
  - unfold vi_granule_id. rewrite Hs.
    change ("HLS." +:+ ?x) with ("HLS" +:+ "." +:+ x).
    apply replace_first_prefix.
Qed.

(** C4, amended. For every string that does not have the format
    [HLS.<INSTR>.<TILE>.<TS>.v<VER>] with [INSTR] one of [L30] and [S30],
    parsing the identifier raises [MalformedGranuleId], and so does
    [output_key_prefix], which parses it; [granule_sources] does not parse
    its argument and returns. *)
Theorem malformed_id_rejected_where_parsed (s : string) :
  ~ well_formed s ->
  GranuleId_from_string (Err:=Err) s = Raise MalformedGranuleId /\
  output_key_prefix (Err:=Err) s = Raise MalformedGranuleId /\
  granule_sources_outcome (Err:=Err) s = Ok (granule_sources s).
Proof.
  intros Hs.
  assert (GranuleId_from_string (Err:=Err) s = Raise MalformedGranuleId) as Hp.
  { destruct (GranuleId_from_string (Err:=Err) s) as [g|e] eqn:Hg.
    - destruct Hs. apply (from_string_well_formed (Err:=Err)). by exists g.
    - by rewrite (from_string_raises _ _ Hg). }
  split; [done |]. split; [| done].
  unfold output_key_prefix. by rewrite Hp.
Qed.

End ResolverFacts.

(** C4, as stated, fails: the string ["not-a-granule"] does not have the
    identifier format, yet [granule_sources] raises nothing on it and
    returns the S30-shaped result. *)
Lemma granule_sources_accepts_malformed :
  ~ well_formed "not-a-granule" /\
  GranuleId_from_string (Err:=unit) "not-a-granule" = Raise MalformedGranuleId /\
  granule_sources_outcome (Err:=unit) "not-a-granule"
    = Ok (expected_sources S30 "not-a-granule") /\
  granule_sources_outcome (Err:=unit) "not-a-granule" <> Raise MalformedGranuleId.
Proof.
  split; [by intros (i & tile & acq & ver & _ & _ & Hs) |].
  split; [reflexivity |]. split; [reflexivity | discriminate].
Qed.

(** Witnesses at the documented example granule. *)

Lemma granule_sources_of_valid_id_witness :
  GranuleId_from_string (Err:=unit) Toy.granule
    = Ok {| instrument := L30; tile_id := "T58UFF";
            acquisition_date := "2025105T234951"; version := "v2.0" |} /\
  length (granule_sources Toy.granule) = 9.
Proof.
  split; [reflexivity |].
  refine (proj1 (proj2 (granule_sources_of_valid_id (Err:=unit) Toy.granule _ _))).
  reflexivity.
Defined.

Lemma granule_sources_defaults_to_S30_witness :
  Str.startswith "not-a-granule" "HLS.L30" = false /\
  length (granule_sources "not-a-granule") = 9.
Proof.
  split; [reflexivity |].
  apply (granule_sources_defaults_to_S30 (Err:=unit) "not-a-granule").
  reflexivity.
Defined.

Lemma output_key_prefix_derivation_witness :
  exists tail,
    Toy.granule = "HLS" +:+ tail /\
    Str.replace_first "HLS" "HLS-VI" Toy.granule = "HLS-VI" +:+ tail.
Proof.
  refine (proj2 (proj2 (proj2
    (proj2 (proj2 (output_key_prefix_derivation (Err:=unit))) Toy.granule _ _)))).
  reflexivity.
Defined.

Lemma malformed_id_rejected_where_parsed_witness :
  output_key_prefix (Err:=unit) "not-a-granule" = Raise MalformedGranuleId.
Proof.
  refine (proj1 (proj2 (malformed_id_rejected_where_parsed (Err:=unit) "not-a-granule" _))).
  intros (i & tile & acq & ver & _ & _ & Hs). discriminate Hs.
Defined.

(** ** The thread pool *)

Section PoolFacts.
Context `{Platform}.
Implicit Types (d : Downloader) (tasks : list (Source * Path)) (sched : list nat).
Implicit Types (futures : list (nat * res Err unit)) (w : World).

Lemma pool_run_cons d tasks i sched w :
  pool_run d tasks (i :: sched) w =
  match tasks !! i with
  | None => pool_run d tasks sched w
  | Some (src, dst) =>
      let '(r, w1) := d src dst w in
      let '(futures, w2, evs) := pool_run d tasks sched w1 in
      ((i, r) :: futures, w2, EvDownload src dst :: evs)
  end.
Proof. done. Qed.

(** Induction over the tasks of a schedule, in the order in which they run. *)
Lemma pool_run_ind (Q : list nat -> World -> list (nat * res Err unit) -> World ->
                        list event -> Prop) d tasks :
  (forall w, Q [] w [] w []) ->
  (forall i sched w, tasks !! i = None ->
     forall futures w' evs, pool_run d tasks sched w = (futures, w', evs) ->
     Q sched w futures w' evs -> Q (i :: sched) w futures w' evs) ->
  (forall i sched w src dst r w1 futures w' evs,
     tasks !! i = Some (src, dst) -> d src dst w = (r, w1) ->
     pool_run d tasks sched w1 = (futures, w', evs) ->
     Q sched w1 futures w' evs ->
     Q (i :: sched) w ((i, r) :: futures) w' (EvDownload src dst :: evs)) ->
  forall sched w futures w' evs,
    pool_run d tasks sched w = (futures, w', evs) -> Q sched w futures w' evs.
Proof.
  intros Hnil Hskip Hstep. induction sched as [|i sched IH]; intros w futures w' evs Hrun.
  - simpl in Hrun. simplify_eq. apply Hnil.
  - rewrite pool_run_cons in Hrun.
    destruct (tasks !! i) as [[src dst]|] eqn:Hi.
    + destruct (d src dst w) as [r w1] eqn:Hd.
      destruct (pool_run d tasks sched w1) as [[futures1 w2] evs1] eqn:Hrest.
      simplify_eq. eapply Hstep; eauto.
    + eapply Hskip; eauto.
Qed.

(** The futures are those of the scheduled tasks, in schedule order. *)
Lemma pool_run_futures d tasks sched w futures w' evs :
  Forall (fun i => i < length tasks) sched ->
  pool_run d tasks sched w = (futures, w', evs) ->
  futures.*1 = sched.
Proof.
  intros Hv Hrun. revert Hv.
  eapply (pool_run_ind (fun sched _ futures _ _ =>
            Forall (fun i => i < length tasks) sched -> futures.*1 = sched));
    [ | | | exact Hrun]; clear Hrun.
  - done.
  - intros i sched0 w0 Hi futures0 w0' evs0 _ _ Hv.
    apply Forall_cons_1 in Hv as [Hlt _].
    apply lookup_ge_None in Hi. lia.
  - intros i sched0 w0 src dst r w1 futures0 w0' evs0 _ _ _ IH Hv.
    apply Forall_cons_1 in Hv as [_ Hv]. rewrite fmap_cons. by rewrite IH.
Qed.

(** One downloader call per scheduled task, in schedule order. *)
Lemma pool_run_events d tasks sched w futures w' evs :
  pool_run d tasks sched w = (futures, w', evs) ->
  evs = omap (download_of tasks) sched.
Proof.
  apply (pool_run_ind (fun sched _ _ _ evs => evs = omap (download_of tasks) sched)).
  - done.
  - intros i sched0 w0 Hi futures0 w0' evs0 _ ->.
    assert (download_of tasks i = None) as Hnone
      by (unfold download_of; by rewrite Hi).
    simpl. by rewrite Hnone.
  - intros i sched0 w0 src dst r w1 futures0 w0' evs0 Hi _ _ ->.
    assert (download_of tasks i = Some (EvDownload src dst)) as Hsome
      by (unfold download_of; by rewrite Hi).
    simpl. by rewrite Hsome.
Qed.

(** Every stored result is what the downloader returned for that task. *)
Lemma pool_run_future_origin d tasks sched w futures w' evs i r :
  pool_run d tasks sched w = (futures, w', evs) ->
  (i, r) ∈ futures ->
  exists src dst w0 w1, tasks !! i = Some (src, dst) /\ d src dst w0 = (r, w1).
Proof.
  apply (pool_run_ind (fun _ _ futures _ _ => (i, r) ∈ futures ->
           exists src dst w0 w1, tasks !! i = Some (src, dst) /\ d src dst w0 = (r, w1))).
  - intros _ Hin. by apply elem_of_nil in Hin.
  - eauto.
  - intros j sched0 w0 src dst r' w1 futures0 w0' evs0 Hj Hd _ IH Hin.
    apply elem_of_cons in Hin as [[= -> ->]|Hin]; eauto 6.
Qed.

Lemma pool_run_keeps_files d tasks sched w futures w' evs :
  keeps_files d ->
  pool_run d tasks sched w = (futures, w', evs) ->
  forall p, path_exists p w = true -> path_exists p w' = true.
Proof.
  intros Hk.
  apply (pool_run_ind (fun _ w _ w' _ =>
           forall p, path_exists p w = true -> path_exists p w' = true)); eauto.
Qed.

(** When every scheduled task returned, a downloader that writes its
    destination leaves all destinations of the schedule on disk. *)
Lemma pool_run_writes d tasks sched w futures w' evs :
  writes_destination d ->
  pool_run d tasks sched w = (futures, w', evs) ->
  (forall i r, (i, r) ∈ futures -> r = Ok tt) ->
  (forall p, path_exists p w = true -> path_exists p w' = true) /\
  (forall i src dst, i ∈ sched -> tasks !! i = Some (src, dst) ->
                     path_exists dst w' = true).
Proof.
  intros Hw.
  apply (pool_run_ind (fun sched w futures w' _ =>
    (forall i r, (i, r) ∈ futures -> r = Ok tt) ->
    (forall p, path_exists p w = true -> path_exists p w' = true) /\
    (forall i src dst, i ∈ sched -> tasks !! i = Some (src, dst) ->
                       path_exists dst w' = true))).
  - intros w0 _. split; [done |]. intros i src dst Hin. by apply elem_of_nil in Hin.
  - intros i sched0 w0 Hi futures0 w0' evs0 _ IH Hok.
    destruct (IH Hok) as [Hkeep Hdst]. split; [done |].
    intros j src dst Hin Hj. apply elem_of_cons in Hin as [->|Hin]; [congruence | eauto].
  - intros i sched0 w0 src dst r w1 futures0 w0' evs0 Hi Hd _ IH Hok.
    assert (r = Ok tt) as -> by (apply (Hok i); left).
    destruct (Hw _ _ _ _ Hd) as [Hdst Hkeep].
    destruct IH as [IHkeep IHdst]; [intros j r Hin; apply (Hok j); by right |].
    split; [eauto |].
    intros j src' dst' Hin Hj. apply elem_of_cons in Hin as [->|Hin]; [| eauto].
    rewrite Hi in Hj. injection Hj as <- <-. eauto.
Qed.

Lemma future_result_elem futures i r :
  future_result futures i = Some r -> (i, r) ∈ futures.
Proof.
  induction futures as [|[j r'] futures IH]; simpl; [done |].
  case_decide as Hij; [intros [= ->]; subst; left | right; auto].
Qed.

Lemma future_result_NoDup futures i r :
  NoDup futures.*1 -> (i, r) ∈ futures -> future_result futures i = Some r.
Proof.
  induction futures as [|[j r'] futures IH]; simpl; intros Hnd Hin.
  - by apply elem_of_nil in Hin.
  - apply NoDup_cons in Hnd as [Hj Hnd].
    apply elem_of_cons in Hin as [[= -> ->]|Hin]; [by rewrite decide_True |].
    rewrite decide_False; [auto |]. intros ->. apply Hj.
    apply list_elem_of_fmap. by exists (j, r).
Qed.

Lemma await_ok futures order u :
  await futures order = Some (Ok u) ->
  forall i, i ∈ order -> future_result futures i = Some (Ok tt).
Proof.
  induction order as [|j order IH]; simpl; intros Ha i Hin.
  - by apply elem_of_nil in Hin.
  - destruct (future_result futures j) as [[[]|e]|] eqn:Hj; try done.
    apply elem_of_cons in Hin as [->|Hin]; auto.
Qed.

(** The exception [await] re-raises is the one stored for the first task, in
    the order of awaiting, that raised. *)
Lemma await_raise futures order e :
  await futures order = Some (Raise e) ->
  exists pos j,
    order !! pos = Some j /\
    future_result futures j = Some (Raise e) /\
    forall pos' k, pos' < pos -> order !! pos' = Some k ->
                   future_result futures k = Some (Ok tt).
Proof.
  induction order as [|j order IH]; simpl; intros Ha; [done |].
  destruct (future_result futures j) as [[[]|e']|] eqn:Hj; try done.
  - destruct (IH Ha) as (pos & j' & Hpos & Hj' & Hbefore).
    exists (S pos), j'. split; [done |]. split; [done |].
    intros [|pos'] k Hlt Hk; simpl in Hk; [congruence |].
    apply (Hbefore pos'); [lia | done].
  - injection Ha as ->. exists 0, j. split; [done |]. split; [done |].
    intros pos' k Hlt. lia.
Qed.

Lemma length_omap_le {A B} (f : A -> option B) (l : list A) :
  length (omap f l) <= length l.
Proof.
  induction l as [|x l IH]; [done |].
  change (omap f (x :: l)) with (match f x with Some y => y :: omap f l | None => omap f l end).
  destruct (f x); simpl length; lia.
Qed.

(** A failure among the awaited results is never swallowed. *)
Lemma await_not_ok futures order i e u :
  i ∈ order -> future_result futures i = Some (Raise e) ->
  await futures order <> Some (Ok u).
Proof.
  intros Hin Hi Ha. pose proof (await_ok _ _ _ Ha i Hin). congruence.
Qed.

Lemma admissible_length n sched : admissible n sched -> length sched <= n.
Proof.
  intros [Hnd Hlt].
  rewrite <- (length_seq n 0). apply submseteq_length, NoDup_submseteq; [done |].
  intros i Hi. apply elem_of_seq. rewrite Forall_forall in Hlt.
  specialize (Hlt i Hi). lia.
Qed.

Lemma admissible_seq n : admissible n (seq 0 n).
Proof.
  split; [apply NoDup_seq |]. apply Forall_forall. intros i Hi.
  apply elem_of_seq in Hi. lia.
Qed.

Lemma admissible_zero sched : admissible 0 sched -> sched = [].
Proof. intros Ha. apply admissible_length in Ha. by destruct sched; simpl in *; [| lia]. Qed.

End PoolFacts.

(** ** The transfer engine *)

Section TransferFacts.
Context `{Platform}.
Implicit Types (d : Downloader) (srcs : list Source) (dst_dir : Path).
Implicit Types (sched : list nat) (w : World).

Lemma zip_fmap_self {A B} (f : A -> B) (l : list A) :
  zip l (f <$> l) = (fun x => (x, f x)) <$> l.
Proof. induction l as [|x l IH]; [done |]. simpl. f_equal. exact IH. Qed.

(** [download_files] submits the missing tasks to the pool and awaits them. *)
Lemma download_files_unfold d srcs dst_dir sched w :
  download_files d srcs dst_dir sched w =
  let tasks := missing_tasks w srcs dst_dir in
  if decide (admissible (length tasks) sched) then
    let '(futures, w', evs) := pool_run d tasks sched w in
    match await futures (seq 0 (length tasks)) with
    | None => None
    | Some (Raise e) => Some (Raise e, w', evs)
    | Some (Ok _) => Some (Ok (tasks.*1, tasks.*2), w', evs)
    end
  else None.
Proof.
  unfold download_files, missing_tasks, local_path.
  rewrite <- list_fmap_compose, zip_fmap_self, zip_fst_snd. done.
Qed.

Lemma missing_tasks_spec w srcs dst_dir src dst :
  (src, dst) ∈ missing_tasks w srcs dst_dir <->
  src ∈ srcs /\ dst = local_path dst_dir src /\ path_exists dst w = false.
Proof.
  unfold missing_tasks. rewrite list_elem_of_filter, list_elem_of_fmap.
  unfold is_missing. simpl. split.
  - intros (Hm & src' & [= -> ->] & Hin). done.
  - intros (Hin & -> & Hm). split; [done |]. by exists src.
Qed.

Lemma missing_tasks_sources_sublist w srcs dst_dir :
  (missing_tasks w srcs dst_dir).*1 `sublist_of` srcs.
Proof.
  unfold missing_tasks. induction srcs as [|src srcs IH]; [done |].
  rewrite fmap_cons, filter_cons. case_decide.
  - rewrite fmap_cons. by apply sublist_skip.
  - by apply sublist_cons.
Qed.

Lemma missing_tasks_paths w srcs dst_dir :
  Forall2 (fun (src : Source) dst =>
             dst = absolute (joinpath dst_dir (basename src.2)) /\
             path_exists dst w = false)
          (missing_tasks w srcs dst_dir).*1 (missing_tasks w srcs dst_dir).*2.
Proof.
  assert (Forall (fun sd : Source * Path =>
            sd.2 = absolute (joinpath dst_dir (basename sd.1.2)) /\
            path_exists sd.2 w = false) (missing_tasks w srcs dst_dir)) as Hall.
  { apply Forall_forall. intros [src dst] Hin.
    apply missing_tasks_spec in Hin as (_ & -> & Hm). done. }
  induction Hall as [|sd l Hsd _ IH]; [constructor |].
  rewrite !fmap_cons. by constructor.
Qed.

(** When no downloader call raises, the run in submission order returns. *)
Lemma pool_run_all_ok d tasks sched w :
  (forall src dst w0, (d src dst w0).1 = Ok tt) ->
  forall i, i ∈ sched -> i < length tasks ->
  future_result (pool_run d tasks sched w).1.1 i = Some (Ok tt).
Proof.
  intros Hd. revert w. induction sched as [|j sched IH]; intros w i Hin Hi.
  - by apply elem_of_nil in Hin.
  - rewrite pool_run_cons.
    destruct (tasks !! j) as [[src dst]|] eqn:Hj.
    + specialize (Hd src dst w). destruct (d src dst w) as [r w1]. simpl in Hd. subst r.
      specialize (IH w1 i).
      destruct (pool_run d tasks sched w1) as [[futures w2] evs]. simpl in *.
      case_decide; [done |].
      apply elem_of_cons in Hin as [->|Hin]; [done | auto].
    + apply elem_of_cons in Hin as [->|Hin]; [| auto].
      apply lookup_ge_None in Hj. lia.
Qed.

Lemma await_all_ok (futures : list (nat * res Err unit)) order :
  (forall i, i ∈ order -> future_result futures i = Some (Ok tt)) ->
  await futures order = Some (Ok tt).
Proof.
  induction order as [|j order IH]; simpl; intros Hall; [done |].
  rewrite (Hall j) by left. apply IH. intros i Hi. apply Hall. by right.
Qed.

(** C5. Whenever [download_files] returns, it returns exactly the sources
    whose local path did not exist when it was called, in source order,
    paired with their local paths; each local path is the destination
    directory joined with the part of the key after its last ['/']; sources
    that were present are left out.  When no fetch raises, it does return. *)
Theorem download_files_returns_missing d srcs dst_dir w :
  (forall sched fetched_srcs fetched_dsts w' evs,
     download_files d srcs dst_dir sched w
       = Some (Ok (fetched_srcs, fetched_dsts), w', evs) ->
     zip fetched_srcs fetched_dsts = missing_tasks w srcs dst_dir /\
     length fetched_srcs = length fetched_dsts /\
     fetched_srcs `sublist_of` srcs /\
     Forall2 (fun (src : Source) dst =>
                dst = absolute (joinpath dst_dir (basename src.2)) /\
                path_exists dst w = false)
             fetched_srcs fetched_dsts /\
     (forall src, src ∈ srcs ->
        (src ∈ fetched_srcs <-> path_exists (local_path dst_dir src) w = false))) /\
  (forall key,
     Str.lacks "/" (basename key) = true /\
     (key = basename key \/ exists dir, key = dir +:+ "/" +:+ basename key)) /\
  ((forall src dst w0, (d src dst w0).1 = Ok tt) ->
   exists w' evs,
     download_files d srcs dst_dir (seq 0 (length (missing_tasks w srcs dst_dir))) w
       = Some (Ok ((missing_tasks w srcs dst_dir).*1,
                   (missing_tasks w srcs dst_dir).*2), w', evs)).
Proof.
  split; [| split].
  - intros sched fetched_srcs fetched_dsts w' evs. rewrite download_files_unfold. simpl.
    case_decide; [| done].
    destruct (pool_run d _ sched w) as [[futures w1] evs1].
    destruct (await futures _) as [[[]|e]|]; try done.
    intros [= <- <- <- <-].
    split; [apply zip_fst_snd |].
    split; [by rewrite !length_fmap |].
    split; [apply missing_tasks_sources_sublist |].
    split; [apply missing_tasks_paths |].
    intros src Hsrc. rewrite list_elem_of_fmap. split.
    + intros ([src' dst] & -> & Hin). apply missing_tasks_spec in Hin as (_ & -> & Hm). done.
    + intros Hm. exists (src, local_path dst_dir src). split; [done |].
      by apply missing_tasks_spec.
  - intros key. unfold basename.
    destruct (StrFacts.after_last "/" key) as [Hb Hk]. split; [done |].
    destruct (Str.lacks "/" key); [by left | right]. destruct Hk as [dir Hk].
    by exists dir.
  - intros Hd. rewrite download_files_unfold. simpl.
    set (tasks := missing_tasks w srcs dst_dir).
    rewrite decide_True by apply admissible_seq.
    pose proof (pool_run_all_ok d tasks (seq 0 (length tasks)) w Hd) as Hok.
    destruct (pool_run d tasks _ w) as [[futures w1] evs1]. simpl in Hok.
    rewrite await_all_ok; [by eauto |].
    intros i Hi. apply Hok; [done |]. apply elem_of_seq in Hi. lia.
Qed.

(** After a run that returned, every source has its local path on disk. *)
Lemma download_files_populates d srcs dst_dir sched w r w' evs :
  writes_destination d ->
  download_files d srcs dst_dir sched w = Some (Ok r, w', evs) ->
  forall src, src ∈ srcs -> path_exists (local_path dst_dir src) w' = true.
Proof.
  intros Hw. rewrite download_files_unfold. simpl.
  set (tasks := missing_tasks w srcs dst_dir).
  case_decide as Hadm; [| done]. destruct Hadm as [Hnd Hlt].
  destruct (pool_run d tasks sched w) as [[futures w1] evs1] eqn:Hrun.
  destruct (await futures _) as [[u|e]|] eqn:Haw; try done.
  intros [= <- <- <-] src Hsrc.
  pose proof (pool_run_futures _ _ _ _ _ _ _ Hlt Hrun) as Hkeys.
  pose proof (await_ok _ _ _ Haw) as Hok.
  assert (forall i, i < length tasks -> i ∈ sched) as Hall.
  { intros i Hi. rewrite <- Hkeys.
    apply list_elem_of_fmap. exists (i, Ok tt). split; [done |].
    apply future_result_elem, Hok, elem_of_seq. lia. }
  destruct (pool_run_writes _ _ _ _ _ _ _ Hw Hrun) as [Hkeep Hdst].
  { intros i r Hin.
    assert (i ∈ sched) as Hi
      by (rewrite <- Hkeys; apply list_elem_of_fmap; by exists (i, r)).
    rewrite Forall_forall in Hlt. specialize (Hlt i Hi).
    apply future_result_NoDup in Hin; [| by rewrite Hkeys].
    rewrite Hok in Hin; [congruence |]. apply elem_of_seq. lia. }
  destruct (path_exists (local_path dst_dir src) w) eqn:Hex; [by apply Hkeep |].
  assert ((src, local_path dst_dir src) ∈ tasks) as Hin by (by apply missing_tasks_spec).
  apply list_elem_of_lookup in Hin as [i Hi].
  eapply Hdst; [| exact Hi]. apply Hall. by apply lookup_lt_Some in Hi.
Qed.

(** C2. After a call that returned, with a downloader that writes each
    fetched object to its destination path, a second call with the same
    sources and destination directory invokes the downloader zero times and
    returns an empty fetched set. *)
Theorem download_files_idempotent d srcs dst_dir sched1 w r w1 evs1 :
  writes_destination d ->
  download_files d srcs dst_dir sched1 w = Some (Ok r, w1, evs1) ->
  download_files d srcs dst_dir [] w1 = Some (Ok ([], []), w1, []) /\
  forall sched2 out,
    download_files d srcs dst_dir sched2 w1 = Some out ->
    out = (Ok ([], []), w1, []).
Proof.
  intros Hw Hfirst.
  pose proof (download_files_populates _ _ _ _ _ _ _ _ Hw Hfirst) as Hpop.
  assert (missing_tasks w1 srcs dst_dir = []) as Hnone.
  { destruct (missing_tasks w1 srcs dst_dir) as [|[src dst] l] eqn:Hm; [done |].
    assert ((src, dst) ∈ missing_tasks w1 srcs dst_dir) as Hin by (rewrite Hm; left).
    apply missing_tasks_spec in Hin as (Hsrc & -> & Hex).
    rewrite (Hpop src Hsrc) in Hex. done. }
  split.
  - rewrite download_files_unfold. cbv zeta. rewrite Hnone.
    rewrite decide_True by (split; constructor). done.
  - intros sched2 out. rewrite download_files_unfold. cbv zeta. rewrite Hnone.
    case_decide as Hadm; [| done]. apply admissible_zero in Hadm as ->.
    simpl. by intros [= <-].
Qed.

(** C7. When a fetch fails, [download_files] raises the exception of the
    first failed fetch in submission order, exactly as the downloader raised
    it; it has waited for every task that ran, has invoked the downloader at
    most once per missing source, and has itself changed nothing on disk, so
    that with a downloader that removes no file every path that existed
    before the call exists after it. *)
Theorem download_files_surfaces_first_error d srcs dst_dir sched w out w' evs :
  download_files d srcs dst_dir sched w = Some (out, w', evs) ->
  let tasks := missing_tasks w srcs dst_dir in
  let futures := (pool_run d tasks sched w).1.1 in
  (exists i e, future_result futures i = Some (Raise e)) ->
  (exists j e src dst w0 w1,
     out = Raise e /\
     tasks !! j = Some (src, dst) /\ d src dst w0 = (Raise e, w1) /\
     future_result futures j = Some (Raise e) /\
     forall k, k < j -> future_result futures k = Some (Ok tt)) /\
  w' = (pool_run d tasks sched w).1.2 /\
  evs = omap (download_of tasks) sched /\
  NoDup sched /\
  length evs <= length tasks /\
  (keeps_files d -> forall p, path_exists p w = true -> path_exists p w' = true).
Proof.
  rewrite download_files_unfold. cbv zeta.
  set (tasks := missing_tasks w srcs dst_dir).
  case_decide as Hadm; [| done].
  destruct (pool_run d tasks sched w) as [[futures w1] evs1] eqn:Hrun. simpl.
  intros Hout (i & e & Hi).
  pose proof (pool_run_futures _ _ _ _ _ _ _ (proj2 Hadm) Hrun) as Hkeys.
  pose proof (pool_run_events _ _ _ _ _ _ _ Hrun) as Hevs.
  assert (i ∈ seq 0 (length tasks)) as Hiseq.
  { apply future_result_elem in Hi.
    assert (i ∈ sched) as Hin
      by (rewrite <- Hkeys; apply list_elem_of_fmap; by exists (i, Raise e)).
    destruct Hadm as [_ Hlt]. rewrite Forall_forall in Hlt.
    apply elem_of_seq. specialize (Hlt i Hin). lia. }
  destruct (await futures (seq 0 (length tasks))) as [[u|e']|] eqn:Haw; [| | done].
  { by destruct (await_not_ok _ _ _ _ u Hiseq Hi). }
  injection Hout as <- <- <-.
  apply await_raise in Haw as (pos & j & Hpos & Hj & Hbefore).
  apply lookup_seq in Hpos as [-> Hlt]. simpl in *.
  destruct (pool_run_future_origin _ _ _ _ _ _ _ _ _ Hrun (future_result_elem _ _ _ Hj))
    as (src & dst & w0 & w2 & Htask & Hd).
  split.
  { exists pos, e', src, dst, w0, w2. repeat split; try done.
    intros k Hk. apply (Hbefore k k Hk). apply lookup_seq. split; [done | lia]. }
  split; [done |]. split; [done |]. split; [apply Hadm |].
  split.
  - rewrite Hevs. etrans; [apply length_omap_le |]. by apply admissible_length.
  - intros Hk. by eapply pool_run_keeps_files.
Qed.

End TransferFacts.

(** ** The prepare stage *)

Section PrepareFacts.
Context `{Platform}.

Lemma omap_lookup_seq_from {A B} (f : A -> B) (pre l : list A) :
  omap (fun i => f <$> (pre ++ l) !! i) (seq (length pre) (length l)) = f <$> l.
Proof.
  revert pre. induction l as [|x l IH]; intros pre; [done |].
  change (seq (length pre) (length (x :: l)))
    with (length pre :: seq (S (length pre)) (length l)).
  change (omap ?g (?j :: ?js))
    with (match g j with Some y => y :: omap g js | None => omap g js end).
  cbv beta. rewrite list_lookup_middle by done. simpl.
  f_equal. specialize (IH (pre ++ [x])).
  rewrite <- (assoc_L (++)) in IH. simpl in IH.
  rewrite length_app in IH. simpl in IH.
  replace (length pre + 1) with (S (length pre)) in IH by lia. done.
Qed.

Lemma omap_download_seq (tasks : list (Source * Path)) :
  omap (download_of tasks) (seq 0 (length tasks))
  = (fun sd : Source * Path => EvDownload sd.1 sd.2) <$> tasks.
Proof. apply (omap_lookup_seq_from _ [] tasks). Qed.

(** A run that returned ran every submitted task exactly once. *)
Lemma download_files_ok_schedule (d : Downloader) srcs dst_dir sched w r w' evs :
  download_files d srcs dst_dir sched w = Some (Ok r, w', evs) ->
  let tasks := missing_tasks w srcs dst_dir in
  sched ≡ₚ seq 0 (length tasks) /\
  evs = omap (download_of tasks) sched /\
  r = (tasks.*1, tasks.*2).
Proof.
  rewrite download_files_unfold. cbv zeta.
  set (tasks := missing_tasks w srcs dst_dir).
  case_decide as Hadm; [| done]. destruct Hadm as [Hnd Hlt].
  destruct (pool_run d tasks sched w) as [[futures w1] evs1] eqn:Hrun.
  destruct (await futures _) as [[u|e]|] eqn:Haw; try done.
  intros [= <- <- <-].
  pose proof (pool_run_futures _ _ _ _ _ _ _ Hlt Hrun) as Hkeys.
  pose proof (await_ok _ _ _ Haw) as Hok.
  split; [| split; [by eapply pool_run_events | done]].
  apply NoDup_Permutation; [done | apply NoDup_seq |].
  intros i. rewrite elem_of_seq. split.
  - intros Hi. rewrite Forall_forall in Hlt. specialize (Hlt i Hi). lia.
  - intros Hi. rewrite <- Hkeys. apply list_elem_of_fmap. exists (i, Ok tt).
    split; [done |]. apply future_result_elem, Hok, elem_of_seq. lia.
Qed.


Lemma filter_download_all (tasks : list (Source * Path)) (sched : list nat) :
  filter (fun ev => is_download ev) (omap (download_of tasks) sched)
  = omap (download_of tasks) sched.
Proof.
  induction sched as [|i sched IH]; [done |].
  change (omap ?g (?j :: ?js))
    with (match g j with Some y => y :: omap g js | None => omap g js end).
  destruct (download_of tasks i) as [ev|] eqn:Hev; [| done].
  assert (is_download ev) as Hd.
  { unfold download_of in Hev. destruct (tasks !! i); by simplify_eq/=. }
  rewrite filter_cons_True by done. by rewrite IH.
Qed.

(** The four steps of [strip_metadata_urls] and what each leaves when it
    raises. *)
Lemma strip_metadata_urls_run cmr_xml w :
  strip_metadata_urls cmr_xml w
  = match xslt_load w with
    | Raise e => (Raise e, w, [])
    | Ok transform =>
        match etree_parse cmr_xml w with
        | Raise e => (Raise e, w, [EvParse cmr_xml])
        | Ok doc =>
            match xslt_apply transform doc with
            | Raise e => (Raise e, w, [EvParse cmr_xml])
            | Ok result =>
                ((write_c14n cmr_xml result w).1, (write_c14n cmr_xml result w).2,
                 [EvParse cmr_xml; EvWrite cmr_xml result])
            end
        end
    end.
Proof.
  unfold strip_metadata_urls, bind at 1, read.
  destruct (xslt_load w) as [transform|e]; [| done].
  unfold bind at 1, call. destruct (etree_parse cmr_xml w) as [doc|e]; [| done].
  unfold bind, lift. destruct (xslt_apply transform doc) as [result|e]; [| done].
  by destruct (write_c14n cmr_xml result w) as [r w2].
Qed.



End PrepareFacts.

(** ** The artifact publisher *)

Section PublishFacts.
Context `{Platform}.

Lemma upload_file_ok bucket key src acl w w' evs :
  upload_file bucket key src acl w = (Ok tt, w', evs) ->
  exists body,
    open_rb src w = Ok body /\
    s3_put_object bucket key body acl w = (Ok tt, w') /\
    evs = [EvPut bucket key body acl].
Proof.
  unfold upload_file, bind, read, call.
  destruct (open_rb src w) as [body|e]; [| done].
  destruct (s3_put_object bucket key body acl w) as [r w2] eqn:Hput.
  intros [= -> <- <-]. by exists body.
Qed.

(** The loop over the directory entries issues one upload per entry, in
    iteration order; when it returns, every file was opened and every upload
    returned. *)
Lemma upload_loop_ok bucket key_prefix acl entries w w' evs :
  for_each entries (fun src =>
      upload_file bucket (key_prefix +:+ "/" +:+ path_name src) src acl) w
    = (Ok tt, w', evs) ->
  exists bodies,
    length bodies = length entries /\
    uploaded bucket key_prefix acl w (zip entries bodies) w' /\
    evs = artifact_put bucket key_prefix acl <$> zip entries bodies.
Proof.
  revert w evs. induction entries as [|src entries IH]; intros w evs.
  - intros [= <- <-]. by exists [].
  - simpl. unfold bind at 1.
    destruct (upload_file _ _ src acl w) as [[[[]|e] w1] t1] eqn:Hup; [| done].
    destruct (for_each entries _ w1) as [[r2 w2] t2] eqn:Hrest.
    intros [= -> <- <-].
    apply upload_file_ok in Hup as (body & Hopen & Hput & ->).
    apply IH in Hrest as (bodies & Hlen & Hdone & ->).
    exists (body :: bodies). split; [simpl; by rewrite Hlen |].
    split; [| done]. simpl. split; [done |]. by exists w1.
Qed.

Lemma create_manifest_ok job_id granule_id input_dir bucket w manifest_path w' evs :
  create_manifest job_id granule_id input_dir bucket w = (Ok manifest_path, w', evs) ->
  exists key_prefix collection_suffix vi_granule_id,
    output_key_prefix (Err:=Err) granule_id = Ok key_prefix /\
    last (Str.split "/" key_prefix) = Some vi_granule_id /\
    manifest_path = joinpath input_dir (vi_granule_id +:+ ".json") /\
    evs = [EvManifest
             [path_str input_dir; path_str manifest_path;
              "s3://" +:+ bucket +:+ "/" +:+ key_prefix;
              "HLS" +:+ collection_suffix; vi_granule_id; job_id; "false"]].
Proof.
  unfold create_manifest, bind at 1, lift.
  destruct (output_key_prefix granule_id) as [key_prefix|e]; [| done].
  destruct (Str.split "/" key_prefix) as [|collection_suffix [|x rest]] eqn:Hsplit;
    try done.
  unfold bind, call, ret.
  destruct (hls_manifest_main _ w) as [[[]|e] w1]; [| done].
  intros [= <- <- <-]. eexists _, _, _. split; [done |]. split; [| done].
  rewrite Hsplit, !last_cons. by destruct (last rest).
Qed.

Lemma filter_put_artifacts bucket key_prefix acl (l : list (Path * Body)) :
  filter (fun ev => is_put ev) (artifact_put bucket key_prefix acl <$> l)
  = artifact_put bucket key_prefix acl <$> l.
Proof.
  induction l as [|sb l IH]; [done |].
  rewrite fmap_cons, filter_cons_True by done. by rewrite IH.
Qed.

(** C6. When [upload_outputs] returns for an output directory with [N]
    entries, it has issued exactly [N + 1] uploads: one per entry, in
    iteration order, each of which returned; then, after the manifest was
    generated, the upload of the file [create_manifest] returned, read after
    the generator ran, which is the last call.  The manifest is
    [output_dir / <last component of the key prefix>.json]; it goes under
    the same key prefix and with the same ACL as the artifacts,
    ["public-read"] in debug mode and ["private"] otherwise. *)
Theorem upload_outputs_manifest_last job_id granule_id output_dir bucket debug
    w w' evs entries :
  iterdir output_dir w = Ok entries ->
  upload_outputs job_id granule_id output_dir bucket debug w = (Ok tt, w', evs) ->
  let acl := if debug then "public-read" else "private" in
  exists key_prefix bodies w1 manifest_args manifest_path w2 manifest_body,
    output_key_prefix (Err:=Err) granule_id = Ok key_prefix /\
    length bodies = length entries /\
    uploaded bucket key_prefix acl w (zip entries bodies) w1 /\
    create_manifest job_id granule_id output_dir bucket w1
    = (Ok manifest_path, w2, [EvManifest manifest_args]) /\
    (exists vi_granule_id,
       last (Str.split "/" key_prefix) = Some vi_granule_id /\
       manifest_path = joinpath output_dir (vi_granule_id +:+ ".json") /\
       manifest_args !! 1 = Some (path_str manifest_path)) /\
    open_rb manifest_path w2 = Ok manifest_body /\
    s3_put_object bucket (key_prefix +:+ "/" +:+ path_name manifest_path)
      manifest_body acl w2 = (Ok tt, w') /\
    evs = (artifact_put bucket key_prefix acl <$> zip entries bodies)
          ++ [EvManifest manifest_args;
              artifact_put bucket key_prefix acl (manifest_path, manifest_body)] /\
    manifest_args !! 2 = Some ("s3://" +:+ bucket +:+ "/" +:+ key_prefix) /\
    length (filter (fun ev => is_put ev) evs) = length entries + 1 /\
    last evs = Some (artifact_put bucket key_prefix acl (manifest_path, manifest_body)).
Proof.
  intros Hdir. unfold upload_outputs, bind at 1, lift.
  destruct (output_key_prefix granule_id) as [key_prefix|e] eqn:Hkey; [| done].
  unfold bind at 1, read. rewrite Hdir.
  unfold bind at 1.
  destruct (for_each entries _ w) as [[[[]|e] w1] t1] eqn:Hloop; [| done].
  unfold bind at 1.
  destruct (create_manifest _ _ _ _ w1) as [[[manifest_path|e] w2] t2] eqn:Hman; [| done].
  destruct (upload_file _ _ manifest_path _ w2) as [[r3 w3] t3] eqn:Hup.
  intros [= -> <- <-].
  apply upload_loop_ok in Hloop as (bodies & Hlen & Hdone & ->).
  pose proof Hman as Hman'.
  apply create_manifest_ok in Hman' as (kp & cs & vi & Hkp & Hvi & Hpath & ->).
  apply upload_file_ok in Hup as (manifest_body & Hopen & Hput & ->).
  rewrite Hkey in Hkp. injection Hkp as <-.
  assert (acl_of debug = if debug then "public-read" else "private") as Hacl by done.
  rewrite Hacl in *. simpl.
  assert (length (zip entries bodies) = length entries) as Hzip
    by (rewrite length_zip; lia).
  eexists key_prefix, bodies, w1, _, manifest_path, w2, manifest_body.
  split; [done |]. split; [done |]. split; [done |]. split; [exact Hman |].
  split; [by exists vi |]. split; [done |]. split; [done |].
  split; [reflexivity |]. split; [done |]. split.
  - rewrite filter_app, filter_put_artifacts, length_app, length_fmap, Hzip.
    done.
  - match goal with
    | |- last (?l ++ [?a; ?b]) = _ =>
        change (l ++ [a; b]) with (l ++ [a] ++ [b]);
        rewrite (assoc_L (++) l [a] [b])
    end.
    apply last_snoc.
Qed.

End PublishFacts.

(** ** The pipeline on the concrete platform *)

Lemma Toy_write_exists (p q c : string) (w : Toy.disk) :
  Toy.exists_on p (Toy.write q c w) = true <-> p = q \/ Toy.exists_on p w = true.
Proof.
  unfold Toy.exists_on, Toy.write. simpl.
  destruct (String.eqb_spec p q) as [->|Hne]; [by split; [left |] |].
  split; [by right | by intros [? | ?]].
Qed.

Lemma Toy_fetch_writes_destination :
  writes_destination (H:=Toy.platform) make_s3_downloader.
Proof.
  intros [bucket key] dst w w'. simpl. unfold Toy.fetch.
  destruct (String.eqb bucket "nowhere"); [done |].
  destruct (Str.startswith key _); [done |]. intros [= <-].
  split; [apply Toy_write_exists; by left |].
  intros p Hp. apply Toy_write_exists. by right.
Qed.

Lemma Toy_fetch_keeps_files :
  keeps_files (H:=Toy.platform) make_s3_downloader.
Proof.
  intros [bucket key] dst w r w' p. simpl. unfold Toy.fetch.
  destruct (String.eqb bucket "nowhere"); [by intros [= <- <-] |].
  destruct (Str.startswith key _); intros [= <- <-]; [done |].
  intros Hp. apply Toy_write_exists. by right.
Qed.


Lemma download_files_returns_missing_witness :
  exists w' evs,
    download_files (H:=Toy.platform) make_s3_downloader Toy.wanted Toy.input_dir
      [0] Toy.partly_fetched
    = Some (Ok ([("lp-prod-protected", "HLSL30.020/G/G.B02.tif")],
                ["/var/scratch/job-1/hls/G.B02.tif"]), w', evs) /\
    [("lp-prod-protected", "HLSL30.020/G/G.B02.tif")] `sublist_of` Toy.wanted.
Proof.
  eexists _, _.
  assert (Hrun : download_files (H:=Toy.platform) make_s3_downloader Toy.wanted
                   Toy.input_dir [0] Toy.partly_fetched = Some (_, _, _))
    by (vm_compute; reflexivity).
  split; [exact Hrun |].
  exact (proj1 (proj2 (proj2
    (proj1 (download_files_returns_missing (H:=Toy.platform) make_s3_downloader
              Toy.wanted Toy.input_dir Toy.partly_fetched) _ _ _ _ _ Hrun)))).
Defined.

Lemma download_files_idempotent_witness :
  exists w1 evs1,
    download_files (H:=Toy.platform) make_s3_downloader Toy.wanted Toy.input_dir
      [0] Toy.partly_fetched
    = Some (Ok ([("lp-prod-protected", "HLSL30.020/G/G.B02.tif")],
                ["/var/scratch/job-1/hls/G.B02.tif"]), w1, evs1) /\
    download_files (H:=Toy.platform) make_s3_downloader Toy.wanted Toy.input_dir
      [] w1 = Some (Ok ([], []), w1, []).
Proof.
  eexists _, _.
  assert (Hrun : download_files (H:=Toy.platform) make_s3_downloader Toy.wanted
                   Toy.input_dir [0] Toy.partly_fetched = Some (_, _, _))
    by (vm_compute; reflexivity).
  split; [exact Hrun |].
  exact (proj1 (download_files_idempotent (H:=Toy.platform) _ _ _ _ _ _ _ _
                  Toy_fetch_writes_destination Hrun)).
Defined.

Lemma download_files_surfaces_first_error_witness :
  exists w' evs,
    download_files (H:=Toy.platform) make_s3_downloader Toy.unreachable
      Toy.input_dir [2; 0; 1] []
    = Some (Raise (External "NoSuchBucket"), w', evs) /\
    length evs <= 3 /\
    forall p, Toy.exists_on p [] = true -> Toy.exists_on p w' = true.
Proof.
  eexists _, _.
  assert (Hrun : download_files (H:=Toy.platform) make_s3_downloader Toy.unreachable
                   Toy.input_dir [2; 0; 1] [] = Some (_, _, _))
    by (vm_compute; reflexivity).
  split; [exact Hrun |].
  destruct (download_files_surfaces_first_error (H:=Toy.platform) _ _ _ _ _ _ _ _ Hrun)
    as (_ & _ & _ & _ & Hlen & Hkeep).
  - exists 1, (External "NoSuchBucket"). vm_compute. reflexivity.
  - split; [exact Hlen | exact (Hkeep Toy_fetch_keeps_files)].
Defined.


Lemma upload_outputs_manifest_last_witness :
  exists w' evs entries,
    iterdir (Platform:=Toy.platform) Toy.output_dir Toy.produced = Ok entries /\
    upload_outputs (H:=Toy.platform) "job-1" Toy.granule Toy.output_dir
      "lp-prod-output" false Toy.produced = (Ok tt, w', evs) /\
    exists key_prefix bodies w1 manifest_args manifest_path w2 manifest_body,
      output_key_prefix (Err:=string) Toy.granule = Ok key_prefix /\
      length bodies = length entries /\
      uploaded (H:=Toy.platform) "lp-prod-output" key_prefix "private" Toy.produced
        (zip entries bodies) w1 /\
      create_manifest (H:=Toy.platform) "job-1" Toy.granule Toy.output_dir
        "lp-prod-output" w1
      = (Ok manifest_path, w2, [EvManifest manifest_args]) /\
      (exists vi_granule_id,
         last (Str.split "/" key_prefix) = Some vi_granule_id /\
         manifest_path = joinpath (Platform:=Toy.platform) Toy.output_dir
                           (vi_granule_id +:+ ".json") /\
         manifest_args !! 1 = Some manifest_path) /\
      open_rb (Platform:=Toy.platform) manifest_path w2 = Ok manifest_body /\
      s3_put_object (Platform:=Toy.platform) "lp-prod-output"
        (key_prefix +:+ "/" +:+ path_name (Platform:=Toy.platform) manifest_path)
        manifest_body "private" w2 = (Ok tt, w') /\
      evs = (artifact_put (H:=Toy.platform) "lp-prod-output" key_prefix "private"
               <$> zip entries bodies)
            ++ [EvManifest manifest_args;
                artifact_put (H:=Toy.platform) "lp-prod-output" key_prefix "private"
                  (manifest_path, manifest_body)] /\
      manifest_args !! 2 = Some ("s3://" +:+ "lp-prod-output" +:+ "/" +:+ key_prefix) /\
      length (filter (fun ev => is_put ev) evs) = length entries + 1 /\
      last evs = Some (artifact_put (H:=Toy.platform) "lp-prod-output" key_prefix
                         "private" (manifest_path, manifest_body)).
Proof.
  eexists _, _, _.
  assert (Hrun : upload_outputs (H:=Toy.platform) "job-1" Toy.granule Toy.output_dir
                   "lp-prod-output" false Toy.produced = (Ok tt, _, _))
    by (vm_compute; reflexivity).
  assert (Hdir : iterdir (Platform:=Toy.platform) Toy.output_dir Toy.produced
                 = Ok [_; _]) by (vm_compute; reflexivity).
  exact (conj Hdir (conj Hrun
           (upload_outputs_manifest_last (H:=Toy.platform) _ _ _ _ _ _ _ _ _ Hdir Hrun))).
Defined.

(** ** The doctests of the module *)

Example granule_sources_doctest_L30 :
  granule_sources "HLS.L30.T58UFF.2025105T234951.v2.0" =
  [("lp-prod-public", "HLSL30.020/HLS.L30.T58UFF.2025105T234951.v2.0/HLS.L30.T58UFF.2025105T234951.v2.0.jpg");
   ("lp-prod-protected", "HLSL30.020/HLS.L30.T58UFF.2025105T234951.v2.0/HLS.L30.T58UFF.2025105T234951.v2.0.B02.tif");
   ("lp-prod-protected", "HLSL30.020/HLS.L30.T58UFF.2025105T234951.v2.0/HLS.L30.T58UFF.2025105T234951.v2.0.B03.tif");
   ("lp-prod-protected", "HLSL30.020/HLS.L30.T58UFF.2025105T234951.v2.0/HLS.L30.T58UFF.2025105T234951.v2.0.B04.tif");
   ("lp-prod-protected", "HLSL30.020/HLS.L30.T58UFF.2025105T234951.v2.0/HLS.L30.T58UFF.2025105T234951.v2.0.B05.tif");
   ("lp-prod-protected", "HLSL30.020/HLS.L30.T58UFF.2025105T234951.v2.0/HLS.L30.T58UFF.2025105T234951.v2.0.B06.tif");
   ("lp-prod-protected", "HLSL30.020/HLS.L30.T58UFF.2025105T234951.v2.0/HLS.L30.T58UFF.2025105T234951.v2.0.B07.tif");
   ("lp-prod-protected", "HLSL30.020/HLS.L30.T58UFF.2025105T234951.v2.0/HLS.L30.T58UFF.2025105T234951.v2.0.Fmask.tif");
   ("lp-prod-protected", "HLSL30.020/HLS.L30.T58UFF.2025105T234951.v2.0/HLS.L30.T58UFF.2025105T234951.v2.0.cmr.xml")].
Proof. reflexivity. Qed.

Example granule_sources_doctest_S30 :
  granule_sources "HLS.S30.T59VNH.2025105T234641.v2.0" =
  [("lp-prod-public", "HLSS30.020/HLS.S30.T59VNH.2025105T234641.v2.0/HLS.S30.T59VNH.2025105T234641.v2.0.jpg");
   ("lp-prod-protected", "HLSS30.020/HLS.S30.T59VNH.2025105T234641.v2.0/HLS.S30.T59VNH.2025105T234641.v2.0.B02.tif");
   ("lp-prod-protected", "HLSS30.020/HLS.S30.T59VNH.2025105T234641.v2.0/HLS.S30.T59VNH.2025105T234641.v2.0.B03.tif");
   ("lp-prod-protected", "HLSS30.020/HLS.S30.T59VNH.2025105T234641.v2.0/HLS.S30.T59VNH.2025105T234641.v2.0.B04.tif");
   ("lp-prod-protected", "HLSS30.020/HLS.S30.T59VNH.2025105T234641.v2.0/HLS.S30.T59VNH.2025105T234641.v2.0.B8A.tif");
   ("lp-prod-protected", "HLSS30.020/HLS.S30.T59VNH.2025105T234641.v2.0/HLS.S30.T59VNH.2025105T234641.v2.0.B11.tif");
   ("lp-prod-protected", "HLSS30.020/HLS.S30.T59VNH.2025105T234641.v2.0/HLS.S30.T59VNH.2025105T234641.v2.0.B12.tif");
   ("lp-prod-protected", "HLSS30.020/HLS.S30.T59VNH.2025105T234641.v2.0/HLS.S30.T59VNH.2025105T234641.v2.0.Fmask.tif");
   ("lp-prod-protected", "HLSS30.020/HLS.S30.T59VNH.2025105T234641.v2.0/HLS.S30.T59VNH.2025105T234641.v2.0.cmr.xml")].
Proof. reflexivity. Qed.

Example output_key_prefix_doctest_L30 :
  output_key_prefix (Err:=unit) "HLS.L30.T58UFF.2025105T234951.v2.0"
  = Ok "L30_VI/data/2025105/HLS-VI.L30.T58UFF.2025105T234951.v2.0".
Proof. reflexivity. Qed.

Example output_key_prefix_doctest_S30 :
  output_key_prefix (Err:=unit) "HLS.S30.T59VNH.2025105T234641.v2.0"
  = Ok "S30_VI/data/2025105/HLS-VI.S30.T59VNH.2025105T234641.v2.0".
Proof. reflexivity. Qed.

(** ** The string primitives on small inputs *)

Example rfind_examples :
  Str.rfind "/" "a/b/c" = 3%Z /\ Str.rfind "/" "abc" = (-1)%Z /\
  Str.rfind "/" "dir/" = 3%Z.
Proof. by repeat split. Qed.

Example basename_examples :
  basename "HLSL30.020/G/G.B02.tif" = "G.B02.tif" /\
  basename "c.tif" = "c.tif" /\ basename "dir/" = "".
Proof. by repeat split. Qed.

Example split_examples :
  Str.split "." "a.b..c" = ["a"; "b"; ""; "c"] /\ Str.split "." "" = [""] /\
  Str.split "." "HLS.L30.T58UFF.2025105T234951.v2.0"
    = ["HLS"; "L30"; "T58UFF"; "2025105T234951"; "v2"; "0"].
Proof. by repeat split. Qed.

Example replace_first_examples :
  Str.replace_first "HLS" "HLS-VI" "xHLSyHLS" = "xHLS-VIyHLS" /\
  Str.replace_first "HLS" "HLS-VI" "none" = "none".
Proof. by repeat split. Qed.

(** * Further properties of the module *)

(** ** Source keys and local file names *)

Section SourceKeyFacts.
Context `{Platform}.
Import Str StrFacts.

Lemma rfind_after (c : ascii) (d b : string) :
  lacks c b = true -> rfind c (d +:+ String c b) = Z.of_nat (String.length d).
Proof.
  intros Hb. induction d as [|a d IH].
  - simpl. by rewrite (rfind_lacks _ _ Hb), Ascii.eqb_refl.
  - change (String a d +:+ String c b) with (String a (d +:+ String c b)).
    simpl rfind. rewrite IH.
    destruct (Z.leb_spec 0 (Z.of_nat (String.length d))); simpl String.length; lia.
Qed.

Lemma drop_S_app (c : ascii) (d b : string) :
  drop (S (String.length d)) (d +:+ String c b) = b.
Proof. induction d as [|a d IH]; [done | exact IH]. Qed.

(** The base name of [d/b] is [b] when [b] has no slash. *)
Lemma basename_app (d b : string) :
  lacks "/" b = true -> basename (d +:+ String "/" b) = b.
Proof.
  intros Hb. unfold basename, slice_from. rewrite (rfind_after _ _ _ Hb).
  replace (Z.to_nat (Z.of_nat (String.length d) + 1)) with (S (String.length d)) by lia.
  apply drop_S_app.
Qed.

Lemma granule_sources_keys (s : string) :
  (granule_sources s).*2
  = (fun suffix => collection_of (branch_of s) +:+ "/" +:+ s +:+ "/" +:+ s +:+ suffix)
      <$> source_suffixes (branch_of s).
Proof. rewrite granule_sources_branch. fold (branch_of s). by destruct (branch_of s). Qed.

Lemma source_suffixes_NoDup (i : Instrument) : NoDup (source_suffixes i).
Proof. destruct i; apply (bool_decide_unpack _); by vm_compute. Qed.

Lemma source_suffixes_lack_slash (i : Instrument) :
  Forall (fun suffix => lacks "/" suffix = true) (source_suffixes i).
Proof. destruct i; repeat constructor. Qed.

(** X1. For every string, identifier or not, [granule_sources] names nine
    objects with pairwise distinct keys, each key being the collection, the
    string twice and one of the fixed suffixes. *)
Theorem granule_sources_keys_distinct (s : string) :
  length (granule_sources s) = 9 /\
  (granule_sources s).*2
    = (fun suffix => collection_of (branch_of s) +:+ "/" +:+ s +:+ "/" +:+ s +:+ suffix)
        <$> source_suffixes (branch_of s) /\
  NoDup (granule_sources s).*2 /\
  NoDup (granule_sources s).
Proof.
  assert (NoDup (granule_sources s).*2) as Hkeys.
  { rewrite granule_sources_keys. apply NoDup_fmap_2; [| apply source_suffixes_NoDup].
    intros a b Hab. by do 5 apply String.app_inj in Hab. }
  split; [rewrite granule_sources_branch; apply expected_sources_length |].
  split; [apply granule_sources_keys |]. split; [done |].
  by apply NoDup_fmap_1 in Hkeys.
Qed.

(** X2. When the granule id has no slash, the local file name of each
    source is the id followed by its suffix; the nine file names are pairwise
    distinct, and the last one is the [<id>.cmr.xml] that [prepare_inputs]
    hands to the sanitizer. *)
Theorem granule_sources_file_names (s : string) :
  lacks "/" s = true ->
  (fun src : Source => basename src.2) <$> granule_sources s
    = (fun suffix => s +:+ suffix) <$> source_suffixes (branch_of s) /\
  NoDup ((fun src : Source => basename src.2) <$> granule_sources s) /\
  last ((fun src : Source => basename src.2) <$> granule_sources s)
    = Some (s +:+ ".cmr.xml").
Proof.
  intros Hs.
  assert ((fun src : Source => basename src.2) <$> granule_sources s
          = (fun suffix => s +:+ suffix) <$> source_suffixes (branch_of s)) as Hnames.
  { change ((fun src : Source => basename src.2) <$> granule_sources s)
      with (basename ∘ snd <$> granule_sources s).
    rewrite list_fmap_compose, granule_sources_keys.
    rewrite <- list_fmap_compose. apply Forall_fmap_ext_1.
    eapply Forall_impl; [apply (source_suffixes_lack_slash (branch_of s)) |].
    intros suffix Hsuffix. simpl.
    change (?c +:+ "/" +:+ s +:+ "/" +:+ s +:+ suffix)
      with (c +:+ String "/" (s +:+ String "/" (s +:+ suffix))).
    rewrite <- (app_assoc _ (String "/" s) (String "/" (s +:+ suffix))).
    apply basename_app. by rewrite lacks_app, Hs, Hsuffix. }
  rewrite Hnames. split; [done |]. split.
  - apply NoDup_fmap_2; [| apply source_suffixes_NoDup].
    intros a b Hab. by apply String.app_inj in Hab.
  - by destruct (branch_of s).
Qed.

End SourceKeyFacts.

Lemma granule_sources_file_names_witness :
  last ((fun src : Source => basename src.2) <$> granule_sources Toy.granule)
  = Some (Toy.granule +:+ ".cmr.xml").
Proof.
  refine (proj2 (proj2 (granule_sources_file_names Toy.granule _))). reflexivity.
Defined.

(** ** More on the transfer engine *)

Section TransferMoreFacts.
Context `{Platform}.
Implicit Types (d : Downloader) (srcs : list Source) (dst_dir : Path).
Implicit Types (sched : list nat) (w : World).

Lemma download_files_events d srcs dst_dir sched w out w' evs :
  download_files d srcs dst_dir sched w = Some (out, w', evs) ->
  admissible (length (missing_tasks w srcs dst_dir)) sched /\
  evs = omap (download_of (missing_tasks w srcs dst_dir)) sched.
Proof.
  rewrite download_files_unfold. cbv zeta.
  case_decide as Hadm; [| done].
  destruct (pool_run d _ sched w) as [[futures w1] evs1] eqn:Hrun.
  apply pool_run_events in Hrun as ->.
  destruct (await futures _) as [[u|e]|]; [| | done]; by intros [= <- <- <-].
Qed.

(** X3. In every run, returning or raising, the downloader is only invoked
    on sources whose local path did not exist when [download_files] was
    called, with [dst_dir / basename(key)] as destination, and at most once
    per such source. *)
Theorem download_files_fetches_only_missing d srcs dst_dir sched w out w' evs :
  download_files d srcs dst_dir sched w = Some (out, w', evs) ->
  Forall (fun ev => exists src,
            ev = EvDownload src (absolute (joinpath dst_dir (basename src.2))) /\
            src ∈ srcs /\
            path_exists (absolute (joinpath dst_dir (basename src.2))) w = false) evs /\
  length evs <= length (missing_tasks w srcs dst_dir) /\
  length (missing_tasks w srcs dst_dir) <= length srcs.
Proof.
  intros Hrun. apply download_files_events in Hrun as [Hadm ->].
  split; [| split].
  - apply Forall_forall. intros ev Hev.
    apply list_elem_of_omap in Hev as (i & _ & Hi). unfold download_of in Hi.
    destruct (missing_tasks w srcs dst_dir !! i) as [[src dst]|] eqn:Htask; [| done].
    injection Hi as <-. apply list_elem_of_lookup_2 in Htask.
    apply missing_tasks_spec in Htask as (Hsrc & -> & Hm). by exists src.
  - etrans; [apply length_omap_le |]. by apply admissible_length.
  - unfold missing_tasks. etrans; [apply length_filter |]. by rewrite length_fmap.
Qed.

(** X4. A run that returns has invoked the downloader exactly once for each
    missing source: the calls are a rearrangement of the returned pairs. *)
Theorem download_files_fetches_each_once d srcs dst_dir sched w fetched w' evs :
  download_files d srcs dst_dir sched w = Some (Ok fetched, w', evs) ->
  evs ≡ₚ (fun sd : Source * Path => EvDownload sd.1 sd.2) <$> zip fetched.1 fetched.2 /\
  length evs = length fetched.1.
Proof.
  intros Hrun. apply download_files_ok_schedule in Hrun as (Hperm & -> & ->).
  cbn [fst snd]. rewrite zip_fst_snd.
  assert (omap (download_of (missing_tasks w srcs dst_dir)) sched
          ≡ₚ (fun sd : Source * Path => EvDownload sd.1 sd.2)
                <$> missing_tasks w srcs dst_dir) as Hevs
    by (by rewrite Hperm, omap_download_seq).
  split; [done |]. by rewrite Hevs, !length_fmap.
Qed.

(** X5. The join guarantee: when [download_files] returns, with a
    downloader that writes its destination, the local path of every source
    is on disk, and so is everything that was there before. *)
Theorem download_files_join d srcs dst_dir sched w fetched w' evs :
  writes_destination d ->
  download_files d srcs dst_dir sched w = Some (Ok fetched, w', evs) ->
  (forall src, src ∈ srcs ->
     path_exists (absolute (joinpath dst_dir (basename src.2))) w' = true) /\
  (forall p, path_exists p w = true -> path_exists p w' = true).
Proof.
  intros Hw Hrun. split; [exact (download_files_populates _ _ _ _ _ _ _ _ Hw Hrun) |].
  revert Hrun. rewrite download_files_unfold. cbv zeta.
  set (tasks := missing_tasks w srcs dst_dir).
  case_decide as Hadm; [| done]. destruct Hadm as [Hnd Hlt].
  destruct (pool_run d tasks sched w) as [[futures w1] evs1] eqn:Hrun.
  destruct (await futures _) as [[u|e]|] eqn:Haw; try done.
  intros [= <- <- <-].
  pose proof (pool_run_futures _ _ _ _ _ _ _ Hlt Hrun) as Hkeys.
  pose proof (await_ok _ _ _ Haw) as Hok.
  apply (pool_run_writes _ _ _ _ _ _ _ Hw Hrun).
  intros i r Hin.
  assert (i ∈ sched) as Hi
    by (rewrite <- Hkeys; apply list_elem_of_fmap; by exists (i, r)).
  rewrite Forall_forall in Hlt. specialize (Hlt i Hi).
  apply future_result_NoDup in Hin; [| by rewrite Hkeys].
  rewrite Hok in Hin; [congruence |]. apply elem_of_seq. lia.
Qed.

(** X6. Whether a source is fetched depends only on the base name of its
    key: two sources with the same base name share one local path, and a run
    that returns has fetched both of them (to that one path) or neither. *)
Theorem download_files_same_basename d srcs dst_dir sched w fetched w' evs
    (src1 src2 : Source) :
  download_files d srcs dst_dir sched w = Some (Ok fetched, w', evs) ->
  src1 ∈ srcs -> src2 ∈ srcs -> basename src1.2 = basename src2.2 ->
  (src1 ∈ fetched.1 <-> src2 ∈ fetched.1) /\
  forall dst, (src1, dst) ∈ zip fetched.1 fetched.2 ->
              (src2, dst) ∈ zip fetched.1 fetched.2.
Proof.
  intros Hrun H1 H2 Hbase.
  apply download_files_ok_schedule in Hrun as (_ & _ & ->). cbn [fst snd].
  rewrite zip_fst_snd.
  assert (local_path dst_dir src1 = local_path dst_dir src2) as Hpath
    by (unfold local_path; by rewrite Hbase).
  assert (forall src, src ∈ srcs ->
            (src ∈ (missing_tasks w srcs dst_dir).*1
             <-> path_exists (local_path dst_dir src) w = false)) as Hin.
  { intros src Hsrc. rewrite list_elem_of_fmap. split.
    - intros ([src' dst] & -> & Hm). by apply missing_tasks_spec in Hm as (_ & -> & ?).
    - intros Hm. exists (src, local_path dst_dir src). split; [done |].
      by apply missing_tasks_spec. }
  split; [by rewrite !Hin, Hpath |].
  intros dst Hdst. apply missing_tasks_spec in Hdst as (_ & -> & Hm).
  apply missing_tasks_spec. by rewrite <- Hpath.
Qed.

(** X7. With nothing to fetch, because the source list is empty or every
    local path is already on disk, [download_files] returns two empty lists
    without invoking the downloader or changing anything. *)
Theorem download_files_nothing_missing d srcs dst_dir w :
  (forall src, src ∈ srcs ->
     path_exists (absolute (joinpath dst_dir (basename src.2))) w = true) ->
  download_files d srcs dst_dir [] w = Some (Ok ([], []), w, []) /\
  forall sched out,
    download_files d srcs dst_dir sched w = Some out -> out = (Ok ([], []), w, []).
Proof.
  intros Hall.
  assert (missing_tasks w srcs dst_dir = []) as Hnone.
  { destruct (missing_tasks w srcs dst_dir) as [|[src dst] l] eqn:Hm; [done |].
    assert ((src, dst) ∈ missing_tasks w srcs dst_dir) as Hin by (rewrite Hm; left).
    apply missing_tasks_spec in Hin as (Hsrc & -> & Hex).
    unfold local_path in Hex. by rewrite (Hall src Hsrc) in Hex. }
  split.
  - rewrite download_files_unfold. cbv zeta. rewrite Hnone.
    by rewrite decide_True by (split; constructor).
  - intros sched out. rewrite download_files_unfold. cbv zeta. rewrite Hnone.
    case_decide as Hadm; [| done]. apply admissible_zero in Hadm as ->.
    simpl. by intros [= <-].
Qed.

(** X8. [prepare_inputs] fails fast.  When a download raises, it raises
    that exception and nothing is parsed or written.  When all downloads
    have returned and the stylesheet cannot be loaded, nothing is parsed;
    when parsing [dst_dir / <id>.cmr.xml] or applying the transform raises,
    nothing is written; in each case the exception is raised as it is and
    the disk is as the downloads left it.  Otherwise the transformed document
    is written to the path that was parsed, and the outcome is that of the
    write. *)
Theorem prepare_inputs_fail_fast granule_id dst_dir sched w r w' evs :
  prepare_inputs granule_id dst_dir sched w = Some (r, w', evs) ->
  let cmr_xml := joinpath dst_dir (granule_id +:+ ".cmr.xml") in
  exists out w1 fetches,
    download_files make_s3_downloader (granule_sources granule_id) dst_dir sched w
    = Some (out, w1, fetches) /\
    Forall (fun ev => is_download ev) fetches /\
    (forall e, out = Raise e -> r = Raise e /\ w' = w1 /\ evs = fetches) /\
    ((exists fetched, out = Ok fetched) ->
     (forall e, xslt_load w1 = Raise e -> r = Raise e /\ w' = w1 /\ evs = fetches) /\
     (forall transform e,
        xslt_load w1 = Ok transform -> etree_parse cmr_xml w1 = Raise e ->
        r = Raise e /\ w' = w1 /\ evs = fetches ++ [EvParse cmr_xml]) /\
     (forall transform doc e,
        xslt_load w1 = Ok transform -> etree_parse cmr_xml w1 = Ok doc ->
        xslt_apply transform doc = Raise e ->
        r = Raise e /\ w' = w1 /\ evs = fetches ++ [EvParse cmr_xml]) /\
     (forall transform doc result,
        xslt_load w1 = Ok transform -> etree_parse cmr_xml w1 = Ok doc ->
        xslt_apply transform doc = Ok result ->
        write_c14n cmr_xml result w1 = (r, w') /\
        evs = fetches ++ [EvParse cmr_xml; EvWrite cmr_xml result])).
Proof.
  intros Hrun cmr_xml. revert Hrun. unfold prepare_inputs. fold cmr_xml.
  destruct (download_files _ _ dst_dir sched w) as [[[out w1] fetches]|] eqn:Hdl;
    [| done].
  assert (Forall (fun ev => is_download ev) fetches) as Hfetches.
  { apply download_files_events in Hdl as [_ ->]. rewrite <- filter_download_all.
    apply Forall_forall. intros ev Hev. by apply list_elem_of_filter in Hev as [? _]. }
  destruct out as [fetched|e0].
  - rewrite strip_metadata_urls_run. intros Hrun.
    exists (Ok fetched), w1, fetches. split; [done |]. split; [done |].
    split; [done |]. intros _. split; [| split; [| split]].
    + intros e Hload. rewrite Hload in Hrun. injection Hrun as <- <- <-.
      by rewrite app_nil_r.
    + intros transform e Hload Hparse. rewrite Hload, Hparse in Hrun.
      by injection Hrun as <- <- <-.
    + intros transform doc e Hload Hparse Happly. rewrite Hload, Hparse, Happly in Hrun.
      by injection Hrun as <- <- <-.
    + intros transform doc result Hload Hparse Happly.
      rewrite Hload, Hparse, Happly in Hrun. injection Hrun as <- <- <-.
      by destruct (write_c14n cmr_xml result w1).
  - intros [= <- <- <-]. exists (Raise e0), w1, fetches.
    split; [done |]. split; [done |]. split; [by intros e [= <-] |].
    by intros [fetched [=]].
Qed.

End TransferMoreFacts.

(** ** More on output keys and the publisher *)

Section KeyFacts.
Context {Err : Type}.
Import Str StrFacts.

Lemma split_lacks (c : ascii) (s : string) : lacks c s = true -> split c s = [s].
Proof.
  induction s as [|a s IH]; [done |]. simpl. intros Hs.
  apply andb_true_iff in Hs as [Ha Hs]. apply negb_true_iff in Ha.
  by rewrite Ha, (IH Hs).
Qed.

(** Splitting a string that contains the separator gives at least two fields. *)
Lemma split_two (c : ascii) (x y : string) :
  exists a b rest, split c (x +:+ String c y) = a :: b :: rest.
Proof.
  induction x as [|z x IH].
  - simpl. rewrite Ascii.eqb_refl.
    pose proof (split_nonempty c y). destruct (split c y) as [|b rest]; [done |].
    by eexists _, _, _.
  - destruct IH as (a & b & rest & IH).
    change (String z x +:+ String c y) with (String z (x +:+ String c y)).
    simpl. rewrite IH. destruct (Ascii.eqb z c); by eexists _, _, _.
Qed.

Lemma lacks_slice_to (c : ascii) (n : nat) (s : string) :
  lacks c s = true -> lacks c (slice_to n s) = true.
Proof.
  intros Hs. destruct (slice_to_prefix n s) as [rest Hrest].
  rewrite Hrest, lacks_app in Hs. by apply andb_true_iff in Hs as [? _].
Qed.

(** The shape of the key prefix of an identifier that parses. *)
Lemma output_key_prefix_inv (s key : string) :
  output_key_prefix (Err:=Err) s = Ok key ->
  exists g tail,
    GranuleId_from_string (Err:=Err) s = Ok g /\
    s = "HLS" +:+ tail /\
    key = (Instrument_name (instrument g) +:+ "_VI")
          +:+ String "/" ("data" +:+ String "/"
                (slice_to 7 (acquisition_date g) +:+ String "/" ("HLS-VI" +:+ tail))) /\
    (lacks "/" s = true ->
     lacks "/" (slice_to 7 (acquisition_date g)) = true /\
     lacks "/" ("HLS-VI" +:+ tail) = true).
Proof.
  unfold output_key_prefix.
  destruct (GranuleId_from_string (Err:=Err) s) as [g|e] eqn:Hg; [| done].
  intros [= <-]. pose proof Hg as Hinv.
  apply from_string_inv in Hinv as (ver & _ & _ & _ & Hs).
  set (tail := "." +:+ Instrument_name (instrument g) +:+ "." +:+ tile_id g
               +:+ "." +:+ acquisition_date g +:+ ".v" +:+ ver).
  assert (s = "HLS" +:+ tail) as Htail by done.
  exists g, tail. split; [done |]. split; [done |]. split.
  - rewrite Htail at 1. rewrite replace_first_prefix.
    by rewrite (app_assoc (Instrument_name (instrument g)) "_VI" _).
  - intros Hlacks. split.
    + apply lacks_slice_to. rewrite Hs in Hlacks.
      rewrite !lacks_app in Hlacks.
      repeat (apply andb_true_iff in Hlacks as [? Hlacks]). done.
    + rewrite Htail in Hlacks. rewrite lacks_app in *.
      apply andb_true_iff in Hlacks as [_ ->]. done.
Qed.

(** X9. The key prefix determines the granule: for an identifier without a
    slash, the last component of its key prefix is the VI granule id, from
    which the identifier is read back; so two such identifiers with the same
    key prefix are equal. *)
Theorem output_key_prefix_recovers_id (s key : string) :
  lacks "/" s = true ->
  output_key_prefix (Err:=Err) s = Ok key ->
  basename key = replace_first "HLS" "HLS-VI" s /\
  "HLS" +:+ drop 6 (basename key) = s /\
  forall s', lacks "/" s' = true ->
             output_key_prefix (Err:=Err) s' = Ok key -> s' = s.
Proof.
  assert (forall s key, lacks "/" s = true ->
            output_key_prefix (Err:=Err) s = Ok key ->
            basename key = replace_first "HLS" "HLS-VI" s /\
            "HLS" +:+ drop 6 (basename key) = s) as Hone.
  { clear s key. intros s key Hs Hkey.
    apply output_key_prefix_inv in Hkey as (g & tail & _ & -> & -> & Hl).
    destruct (Hl Hs) as [HY Hvi].
    rewrite replace_first_prefix.
    match goal with
    | |- context [?x +:+ String "/" ("data" +:+ String "/" (?y +:+ String "/" ?v))] =>
        assert (x +:+ String "/" ("data" +:+ String "/" (y +:+ String "/" v))
                = (x +:+ "/data/" +:+ y) +:+ String "/" v) as ->
          by (by rewrite !app_assoc)
    end.
    rewrite basename_app by done. by split. }
  intros Hs Hkey. destruct (Hone s key Hs Hkey) as [Hbase Hback].
  split; [done |]. split; [done |].
  intros s' Hs' Hkey'. destruct (Hone s' key Hs' Hkey') as [_ Hback'].
  by rewrite <- Hback', Hback.
Qed.

End KeyFacts.

Lemma output_key_prefix_recovers_id_witness :
  "HLS" +:+ Str.drop 6
    (basename "L30_VI/data/2025105/HLS-VI.L30.T58UFF.2025105T234951.v2.0")
  = Toy.granule.
Proof.
  refine (proj1 (proj2 (output_key_prefix_recovers_id (Err:=unit) Toy.granule _ _ _)));
    reflexivity.
Defined.

Section PublishMoreFacts.
Context `{Platform}.
Import Str StrFacts.

(** The seven arguments [create_manifest] hands to the manifest generator. *)
Lemma create_manifest_unfold job_id granule_id input_dir bucket w key_prefix
    collection_suffix second rest :
  output_key_prefix (Err:=Err) granule_id = Ok key_prefix ->
  split "/" key_prefix = collection_suffix :: second :: rest ->
  let vi_granule_id := default EmptyString (last (second :: rest)) in
  let manifest_path := joinpath input_dir (vi_granule_id +:+ ".json") in
  let args := [path_str input_dir; path_str manifest_path;
               "s3://" +:+ bucket +:+ "/" +:+ key_prefix;
               "HLS" +:+ collection_suffix; vi_granule_id; job_id; "false"] in
  create_manifest job_id granule_id input_dir bucket w
  = (match (hls_manifest_main args w).1 with
     | Ok _ => Ok manifest_path
     | Raise e => Raise e
     end, (hls_manifest_main args w).2, [EvManifest args]).
Proof.
  intros Hkey Hsplit. unfold create_manifest, bind at 1, lift.
  rewrite Hkey, Hsplit. unfold bind, call, ret. cbv zeta.
  by destruct (hls_manifest_main _ w) as [[[]|e] w1].
Qed.


(** X11. For an identifier without a slash the generator receives the
    collection short name [HLS<instrument>_VI] and the VI granule id, which
    is the identifier with its leading [HLS] replaced by [HLS-VI]; the
    manifest is [input_dir / <VI granule id>.json]. *)
Theorem create_manifest_arguments job_id granule_id input_dir bucket w g key_prefix :
  lacks "/" granule_id = true ->
  GranuleId_from_string (Err:=Err) granule_id = Ok g ->
  output_key_prefix (Err:=Err) granule_id = Ok key_prefix ->
  let vi_granule_id := replace_first "HLS" "HLS-VI" granule_id in
  let manifest_path := joinpath input_dir (vi_granule_id +:+ ".json") in
  (create_manifest job_id granule_id input_dir bucket w).2
  = [EvManifest
       [path_str input_dir; path_str manifest_path;
        "s3://" +:+ bucket +:+ "/" +:+ key_prefix;
        "HLS" +:+ Instrument_name (instrument g) +:+ "_VI";
        vi_granule_id; job_id; "false"]].
Proof.
  intros Hs Hg Hkey. pose proof Hkey as Hinv.
  apply output_key_prefix_inv in Hinv as (g' & tail & Hg' & Htail & Hshape & Hl).
  rewrite Hg in Hg'. injection Hg' as <-.
  destruct (Hl Hs) as [HY Hvi].
  assert (split "/" key_prefix
          = [Instrument_name (instrument g) +:+ "_VI"; "data";
             slice_to 7 (acquisition_date g); "HLS-VI" +:+ tail]) as Hsplit.
  { rewrite Hshape.
    rewrite (split_field "/" (Instrument_name (instrument g) +:+ "_VI"))
      by (by destruct (instrument g)).
    rewrite (split_field "/" "data") by done.
    rewrite (split_field "/" _ _ HY). by rewrite (split_lacks "/" _ Hvi). }
  rewrite (create_manifest_unfold _ _ _ _ _ _ _ _ _ Hkey Hsplit).
  by rewrite Htail, replace_first_prefix.
Qed.

Lemma upload_file_run bucket key src acl w :
  upload_file bucket key src acl w
  = match open_rb src w with
    | Ok body =>
        ((s3_put_object bucket key body acl w).1,
         (s3_put_object bucket key body acl w).2, [EvPut bucket key body acl])
    | Raise e => (Raise e, w, [])
    end.
Proof.
  unfold upload_file, bind, read, call.
  destruct (open_rb src w) as [body|e]; [| done].
  by destruct (s3_put_object bucket key body acl w) as [r w2].
Qed.

(** The loop over the entries, in any run: the uploads of the first entries
    returned; then either the entries are exhausted, or the next entry could
    not be opened, or its upload raised. *)
Lemma upload_loop_run bucket key_prefix acl entries w r w' evs :
  for_each entries (fun src =>
      upload_file bucket (key_prefix +:+ "/" +:+ path_name src) src acl) w
    = (r, w', evs) ->
  exists sent w1,
    sent.*1 = take (length sent) entries /\
    uploaded bucket key_prefix acl w sent w1 /\
    ((r = Ok tt /\ sent.*1 = entries /\ w' = w1 /\
      evs = artifact_put bucket key_prefix acl <$> sent) \/
     (exists src e,
        entries !! length sent = Some src /\ open_rb src w1 = Raise e /\
        r = Raise e /\ w' = w1 /\
        evs = artifact_put bucket key_prefix acl <$> sent) \/
     (exists src body e,
        entries !! length sent = Some src /\ open_rb src w1 = Ok body /\
        s3_put_object bucket (key_prefix +:+ "/" +:+ path_name src) body acl w1
        = (Raise e, w') /\
        r = Raise e /\
        evs = (artifact_put bucket key_prefix acl <$> sent)
              ++ [artifact_put bucket key_prefix acl (src, body)])).
Proof.
  revert w evs. induction entries as [|src entries IH]; intros w evs.
  - intros [= <- <- <-]. exists [], w. split; [done |]. split; [done |]. by left.
  - simpl. unfold bind at 1. rewrite upload_file_run.
    destruct (open_rb src w) as [body|e] eqn:Hopen.
    + destruct (s3_put_object _ _ body acl w) as [[[]|e] w1] eqn:Hput; simpl.
      * destruct (for_each entries _ w1) as [[r2 w2] t2] eqn:Hrest.
        intros [= <- <- <-].
        apply IH in Hrest as (sent & w3 & Hsent & Hdone & Hend).
        exists ((src, body) :: sent), w3.
        split; [simpl; f_equal; exact Hsent |].
        split; [simpl; split; [done |]; by exists w1 |].
        destruct Hend as [(-> & Hall & -> & ->)|
                          [(src' & e & Hnext & Hopen' & -> & -> & ->)|
                           (src' & body' & e & Hnext & Hopen' & Hput' & -> & ->)]].
        -- left. split; [done |]. split; [simpl; f_equal; exact Hall |]. by split.
        -- right. left. by exists src', e.
        -- right. right. by exists src', body', e.
      * intros [= <- <- <-]. exists [], w. split; [done |]. split; [done |].
        right. right. by exists src, body, e.
    + intros [= <- <- <-]. exists [], w. split; [done |]. split; [done |].
      right. left. by exists src, e.
Qed.

(** X12. [upload_outputs] generates and uploads the manifest only after
    the [put_object] of every artifact has returned.  When an artifact cannot
    be opened, or its upload raises, the run raises that exception at once:
    the entries after it are not uploaded, the manifest generator is not
    called and no manifest is uploaded.  When all artifacts are uploaded, the
    generator is called once, and the file it was asked to write is opened
    and uploaded only if the generator returned. *)
Theorem upload_outputs_no_partial_manifest job_id granule_id output_dir bucket debug
    w r w' evs key_prefix entries :
  output_key_prefix (Err:=Err) granule_id = Ok key_prefix ->
  iterdir output_dir w = Ok entries ->
  upload_outputs job_id granule_id output_dir bucket debug w = (r, w', evs) ->
  let acl := if debug then "public-read" else "private" in
  exists sent w1,
    sent.*1 = take (length sent) entries /\
    uploaded bucket key_prefix acl w sent w1 /\
    let puts := artifact_put bucket key_prefix acl <$> sent in
    ((exists src e,
        entries !! length sent = Some src /\ open_rb src w1 = Raise e /\
        r = Raise e /\ w' = w1 /\ evs = puts) \/
     (exists src body e,
        entries !! length sent = Some src /\ open_rb src w1 = Ok body /\
        s3_put_object bucket (key_prefix +:+ "/" +:+ path_name src) body acl w1
        = (Raise e, w') /\
        r = Raise e /\ evs = puts ++ [artifact_put bucket key_prefix acl (src, body)]) \/
     (sent.*1 = entries /\
      exists args,
        (exists e,
           create_manifest job_id granule_id output_dir bucket w1
           = (Raise e, w', [EvManifest args]) /\
           r = Raise e /\ evs = puts ++ [EvManifest args]) \/
        (exists manifest_path w2,
           create_manifest job_id granule_id output_dir bucket w1
           = (Ok manifest_path, w2, [EvManifest args]) /\
           ((exists e,
               open_rb manifest_path w2 = Raise e /\
               r = Raise e /\ w' = w2 /\ evs = puts ++ [EvManifest args]) \/
            (exists body,
               open_rb manifest_path w2 = Ok body /\
               s3_put_object bucket (key_prefix +:+ "/" +:+ path_name manifest_path)
                 body acl w2 = (r, w') /\
               evs = puts ++ [EvManifest args;
                              artifact_put bucket key_prefix acl
                                (manifest_path, body)]))))).
Proof.
  intros Hkey Hdir Hrun acl. revert Hrun.
  unfold upload_outputs, bind at 1, lift. rewrite Hkey.
  unfold bind at 1, read. rewrite Hdir. unfold bind at 1.
  assert (acl_of debug = acl) as -> by done.
  destruct (for_each entries _ w) as [[r1 w1] t1] eqn:Hloop.
  apply upload_loop_run in Hloop as (sent & w0 & Hsent & Hdone & Hend).
  intros Hrun. exists sent, w0. split; [done |]. split; [done |]. cbv zeta.
  destruct Hend as [(-> & Hall & -> & ->)|
                    [(src & e & Hnext & Hopen & -> & -> & ->)|
                     (src & body & e & Hnext & Hopen & Hput & -> & ->)]].
  - right. right. split; [done |].
    revert Hrun. unfold bind at 1.
    pose proof Hkey as Hinv.
    apply output_key_prefix_inv in Hinv as (g & tail & _ & _ & Hshape & _).
    destruct (split_two "/" (Instrument_name (instrument g) +:+ "_VI")
                ("data" +:+ String "/" (slice_to 7 (acquisition_date g)
                   +:+ String "/" ("HLS-VI" +:+ tail))))
      as (cs & second & rest & Hsplit).
    rewrite <- Hshape in Hsplit.
    rewrite (create_manifest_unfold _ _ _ _ w0 _ _ _ _ Hkey Hsplit). cbv zeta.
    match goal with |- context [EvManifest ?a] => set (args := a) end.
    destruct (hls_manifest_main args w0) as [[[]|e] w2]; simpl.
    + rewrite upload_file_run. intros Hrun. exists args. right.
      eexists _, w2. split; [reflexivity |].
      destruct (open_rb _ w2) as [body|e].
      * injection Hrun as <- <- <-. right. exists body. split; [done |].
        split; [| done]. by destruct (s3_put_object _ _ body acl w2).
      * injection Hrun as <- <- <-. left. by exists e.
    + intros [= <- <- <-]. exists args. left. by exists e.
  - injection Hrun as <- <- <-. left. by exists src, e.
  - injection Hrun as <- <- <-. right. left. by exists src, body, e.
Qed.

(** X13. When the key prefix cannot be derived from the granule id,
    [upload_outputs] and [create_manifest] raise that exception at once:
    the directory is not listed, nothing is uploaded and no manifest is
    generated. *)
Theorem publish_rejects_before_any_effect job_id granule_id output_dir bucket debug
    w e :
  output_key_prefix (Err:=Err) granule_id = Raise e ->
  upload_outputs job_id granule_id output_dir bucket debug w = (Raise e, w, []) /\
  create_manifest job_id granule_id output_dir bucket w = (Raise e, w, []).
Proof.
  intros Hkey.
  unfold upload_outputs, create_manifest, bind at 1 5, lift. by rewrite Hkey.
Qed.

End PublishMoreFacts.

(** ** The driver *)

Section DriverFacts.
Context `{Runtime}.

Lemma prepare_inputs_no_put granule_id dst_dir sched w r w' evs :
  prepare_inputs granule_id dst_dir sched w = Some (r, w', evs) ->
  Forall (fun ev => is_put ev = false) evs.
Proof.
  unfold prepare_inputs.
  destruct (download_files _ _ dst_dir sched w) as [[[[fetched|e] w1] t1]|] eqn:Hdl;
    [| | done]; apply download_files_events in Hdl as [_ ->].
  - assert (Forall (fun ev => is_put ev = false)
              (omap (download_of (missing_tasks w (granule_sources granule_id) dst_dir))
                 sched)) as Hfetch.
    { rewrite <- filter_download_all. apply Forall_forall. intros ev Hev.
      apply list_elem_of_filter in Hev as [Hd _]. by destruct ev. }
    rewrite strip_metadata_urls_run.
    destruct (xslt_load w1) as [transform|e];
      [| intros [= <- <- <-]; by rewrite app_nil_r].
    destruct (etree_parse _ w1) as [doc|e].
    2:{ intros [= <- <- <-]. apply Forall_app. split; [done |]. repeat constructor. }
    destruct (xslt_apply transform doc) as [result|e]; intros [= <- <- <-];
      apply Forall_app; (split; [done |]); repeat constructor.
  - intros [= <- <- <-]. rewrite <- filter_download_all. apply Forall_forall.
    intros ev Hev. apply list_elem_of_filter in Hev as [Hd _]. by destruct ev.
Qed.

Lemma upload_outputs_in_mode job_id granule_id output_dir bucket debug w r w' evs :
  upload_outputs job_id granule_id output_dir bucket debug w = (r, w', evs) ->
  Forall (in_mode bucket (if debug then "public-read" else "private")) evs.
Proof.
  assert (acl_of debug = if debug then "public-read" else "private") as <- by done.
  unfold upload_outputs, bind at 1, lift.
  destruct (output_key_prefix granule_id) as [key_prefix|e]; [| by intros [= <- <- <-]].
  unfold bind at 1, read.
  destruct (iterdir output_dir w) as [entries|e]; [| by intros [= <- <- <-]].
  unfold bind at 1.
  destruct (for_each entries _ w) as [[r1 w1] t1] eqn:Hloop.
  assert (Forall (in_mode bucket (acl_of debug)) t1) as Hputs.
  { apply upload_loop_run in Hloop as (sent & w0 & _ & _ & Hend).
    assert (Forall (in_mode bucket (acl_of debug))
              (artifact_put bucket key_prefix (acl_of debug) <$> sent)) as Hsent
      by (apply Forall_fmap, Forall_forall; by intros [src body] _).
    destruct Hend as [(_ & _ & _ & ->)|
                      [(src & e & _ & _ & _ & _ & ->)|
                       (src & body & e & _ & _ & _ & _ & ->)]]; [done | done |].
    apply Forall_app. split; [done |]. by repeat constructor. }
  destruct r1 as [[]|e1]; [| by intros [= <- <- <-]].
  unfold bind at 1.
  destruct (create_manifest _ _ _ _ w1) as [[[manifest_path|e] w2] t2] eqn:Hman.
  - rewrite upload_file_run.
    assert (Forall (in_mode bucket (acl_of debug)) t2) as Ht2.
    { revert Hman. unfold create_manifest, bind at 1, lift.
      destruct (output_key_prefix granule_id) as [kp|e]; [| done].
      destruct (Str.split "/" kp) as [|cs [|x rest]]; try done.
      unfold bind, call, ret. destruct (hls_manifest_main _ w1) as [[[]|e] w3]; [| done].
      intros [= <- <- <-]. by repeat constructor. }
    destruct (open_rb manifest_path w2) as [body|e]; intros [= <- <- <-];
      repeat (apply Forall_app; split); try done; by repeat constructor.
  - intros [= <- <- <-]. apply Forall_app. split; [done |].
    revert Hman. unfold create_manifest, bind at 1, lift.
    destruct (output_key_prefix granule_id) as [kp|e']; [| by intros [= <- <- <-]].
    destruct (Str.split "/" kp) as [|cs [|x rest]]; try by intros [= <- <- <-].
    unfold bind, call, ret. destruct (hls_manifest_main _ w1) as [[[]|e'] w3]; [done |].
    intros [= <- <- <-]. by repeat constructor.
Qed.

(** The generator steps of [create_outputs], in order. *)
Lemma create_outputs_run granule_id input_dir output_dir w r w' steps :
  create_outputs granule_id input_dir output_dir w = Some (r, w', steps) ->
  let vi := Str.replace_first "HLS" "HLS-VI" granule_id in
  let generators :=
    [StGenerateVI input_dir output_dir granule_id;
     StGenerateMetadata input_dir output_dir;
     StCreateItem (path_str (joinpath output_dir (vi +:+ ".cmr.xml")))
       (path_str (joinpath output_dir (vi +:+ "_stac.json")))
       "data.lpdaac.earthdatacloud.nasa.gov" "020"] in
  (r = Ok tt -> steps = generators) /\
  Forall (fun st => is_upload st = false) steps.
Proof.
  unfold create_outputs, dbind, dcall.
  destruct (generate_vi_granule _ _ _ w) as [[[]|e] w1];
    [| intros [= <- <- <-]; split; [done | by repeat constructor]].
  destruct (generate_metadata _ _ w1) as [[[]|e] w2];
    [| intros [= <- <- <-]; split; [done | by repeat constructor]].
  destruct (create_item _ _ _ _ w2) as [r3 w3].
  intros [= <- <- <-]. split; [done | by repeat constructor].
Qed.

(** A run of the stages either raises before the upload stage, having
    uploaded nothing, or has run the prepare stage and the three generators
    to completion and ends with the run of [upload_outputs]. *)
Lemma main_stages_run job_id granule_id bucket debug sched w r w' steps :
  main_stages job_id granule_id bucket debug sched w = Some (r, w', steps) ->
  let working_dir := joinpath (joinpath (path_of "/var") "scratch") job_id in
  let input_dir := joinpath working_dir "hls" in
  let output_dir := joinpath working_dir "hls-vi" in
  let vi := Str.replace_first "HLS" "HLS-VI" granule_id in
  let generators :=
    [StGenerateVI input_dir output_dir granule_id;
     StGenerateMetadata input_dir output_dir;
     StCreateItem (path_str (joinpath output_dir (vi +:+ ".cmr.xml")))
       (path_str (joinpath output_dir (vi +:+ "_stac.json")))
       "data.lpdaac.earthdatacloud.nasa.gov" "020"] in
  ((exists e, r = Raise e) /\ Forall (fun st => is_upload st = false) steps) \/
  (exists w3 w4 pre w7 up,
     prepare_inputs granule_id input_dir sched w3 = Some (Ok tt, w4, pre) /\
     upload_outputs job_id granule_id output_dir bucket debug w7 = (r, w', up) /\
     steps = [StMkdir input_dir; StMkdir output_dir; StClient]
             ++ (Core <$> pre) ++ generators ++ (Core <$> up)).
Proof.
  intros Hrun working_dir input_dir output_dir vi generators. revert Hrun.
  unfold main_stages. fold working_dir. fold input_dir. fold output_dir.
  unfold dbind at 1, dcall at 1.
  destruct (mkdir_parents input_dir w) as [[[]|e] w1];
    [| intros [= <- <- <-]; left; split; [by eexists | by repeat constructor]].
  unfold dbind at 1, dcall at 1.
  destruct (mkdir_parents output_dir w1) as [[[]|e] w2];
    [| intros [= <- <- <-]; left; split; [by eexists | by repeat constructor]].
  unfold dbind at 1, dcall at 1.
  destruct (boto3_client w2) as [[[]|e] w3];
    [| intros [= <- <- <-]; left; split; [by eexists | by repeat constructor]].
  unfold dbind at 1, core_scheduled.
  destruct (prepare_inputs granule_id input_dir sched w3) as [[[r4 w4] pre]|] eqn:Hprep;
    [| done].
  pose proof (prepare_inputs_no_put _ _ _ _ _ _ _ Hprep) as Hpre.
  assert (Forall (fun st => is_upload st = false) (Core <$> pre)) as Hpre'
    by (apply Forall_fmap; eapply Forall_impl; [exact Hpre | by intros []]).
  destruct r4 as [[]|e];
    [| intros [= <- <- <-]; left; split; [by eexists |];
       repeat (apply Forall_cons; split; [done |]); done].
  unfold dbind at 1.
  destruct (create_outputs granule_id input_dir output_dir w4) as [[[r5 w5] gen]|] eqn:Hgen;
    [| done].
  apply create_outputs_run in Hgen as [Hfull Hgen].
  destruct r5 as [[]|e].
  - rewrite (Hfull eq_refl). fold vi. fold generators. unfold core.
    destruct (upload_outputs _ _ _ _ _ w5) as [[r6 w6] up] eqn:Hup.
    intros [= <- <- <-]. right. exists w3, w4, pre, w5, up.
    split; [done |]. by split.
  - intros [= <- <- <-]. left. split; [by eexists |].
    repeat (apply Forall_cons; split; [done |]).
    repeat (apply Forall_app; split); done.
Qed.

(** X14. [main] needs [AWS_BATCH_JOB_ID], [GRANULE_ID] and [OUTPUT_BUCKET]:
    it raises [KeyError] for the first of them that is not set, before doing
    anything, and [OUTPUT_BUCKET] is needed even when [DEBUG_BUCKET] is set,
    because the default of [os.environ.get] is evaluated first.  No other
    [KeyError] arises. *)
Theorem main_requires_environment (environ : gmap string string) sched w :
  (environ !! "AWS_BATCH_JOB_ID" = None ->
   main environ sched w = Some (KeyError "AWS_BATCH_JOB_ID", w, [])) /\
  (is_Some (environ !! "AWS_BATCH_JOB_ID") -> environ !! "GRANULE_ID" = None ->
   main environ sched w = Some (KeyError "GRANULE_ID", w, [])) /\
  (is_Some (environ !! "AWS_BATCH_JOB_ID") -> is_Some (environ !! "GRANULE_ID") ->
   environ !! "OUTPUT_BUCKET" = None ->
   main environ sched w = Some (KeyError "OUTPUT_BUCKET", w, [])) /\
  (forall name w' steps,
     main environ sched w = Some (KeyError name, w', steps) ->
     environ !! name = None /\ w' = w /\ steps = [] /\
     name ∈ ["AWS_BATCH_JOB_ID"; "GRANULE_ID"; "OUTPUT_BUCKET"]).
Proof.
  split; [| split; [| split]].
  - unfold main. by intros ->.
  - unfold main. by intros [job_id ->] ->.
  - unfold main. by intros [job_id ->] [granule_id ->] ->.
  - intros name w' steps. unfold main.
    destruct (environ !! "AWS_BATCH_JOB_ID") as [job_id|] eqn:Hjob;
      [| intros [= <- <- <-]; repeat split; [done | set_solver]].
    destruct (environ !! "GRANULE_ID") as [granule_id|] eqn:Hgranule;
      [| intros [= <- <- <-]; repeat split; [done | set_solver]].
    destruct (environ !! "OUTPUT_BUCKET") as [default_bucket|] eqn:Hbucket;
      [| intros [= <- <- <-]; repeat split; [done | set_solver]].
    by destruct (main_stages _ _ _ _ _ _) as [[[[[]|e] w1] t1]|].
Qed.

(** A run of [main] raises [KeyError] at once or runs the stages. *)
Lemma main_inv (environ : gmap string string) sched w outcome w' steps :
  main environ sched w = Some (outcome, w', steps) ->
  (exists name, outcome = KeyError name /\ steps = []) \/
  exists job_id granule_id default_bucket r,
    environ !! "AWS_BATCH_JOB_ID" = Some job_id /\
    environ !! "GRANULE_ID" = Some granule_id /\
    environ !! "OUTPUT_BUCKET" = Some default_bucket /\
    main_stages job_id granule_id
      (default default_bucket (environ !! "DEBUG_BUCKET"))
      (bool_decide (environ !! "DEBUG_BUCKET" <> None)) sched w = Some (r, w', steps) /\
    outcome = match r with Ok _ => Returned | Raise e => Raised e end.
Proof.
  unfold main.
  destruct (environ !! "AWS_BATCH_JOB_ID") as [job_id|];
    [| intros [= <- <- <-]; left; by eexists].
  destruct (environ !! "GRANULE_ID") as [granule_id|];
    [| intros [= <- <- <-]; left; by eexists].
  destruct (environ !! "OUTPUT_BUCKET") as [default_bucket|];
    [| intros [= <- <- <-]; left; by eexists].
  destruct (main_stages _ _ _ _ _ _) as [[[r w1] t1]|] eqn:Hstages; [| done].
  intros Hout. right. exists job_id, granule_id, default_bucket, r.
  repeat split; try done; destruct r as [[]|e]; by injection Hout as <- <- <-.
Qed.

(** X15. Every upload of a run of [main] goes to [DEBUG_BUCKET] with ACL
    ["public-read"] when that variable is set, and to [OUTPUT_BUCKET] with
    ACL ["private"] when it is not. *)
Theorem main_upload_mode (environ : gmap string string) sched w outcome w' steps
    bucket key body acl :
  main environ sched w = Some (outcome, w', steps) ->
  Core (EvPut bucket key body acl) ∈ steps ->
  match environ !! "DEBUG_BUCKET" with
  | Some debug_bucket => bucket = debug_bucket /\ acl = "public-read"
  | None => environ !! "OUTPUT_BUCKET" = Some bucket /\ acl = "private"
  end.
Proof.
  intros Hmain Hput.
  destruct (main_inv _ _ _ _ _ _ Hmain) as
    [(name & _ & ->)|
     (job_id & granule_id & default_bucket & r & _ & _ & Hbucket & Hstages & _)];
    [by apply elem_of_nil in Hput |].
  apply main_stages_run in Hstages as [[_ Hnone]|Hreached].
  - rewrite Forall_forall in Hnone. by specialize (Hnone _ Hput).
  - destruct Hreached as (w3 & w4 & pre & w7 & up & Hprep & Hup & ->).
    apply prepare_inputs_no_put in Hprep. apply upload_outputs_in_mode in Hup.
    rewrite Forall_forall in Hprep, Hup.
    assert (EvPut bucket key body acl ∈ up) as Hin.
    { rewrite !elem_of_app, !list_elem_of_fmap in Hput.
      destruct Hput as [Hput|[(ev & [= <-] & Hev)|[Hput|(ev & [= <-] & Hev)]]]; [| | | done].
      - repeat (apply elem_of_cons in Hput as [Hput|Hput]; [done |]).
        by apply elem_of_nil in Hput.
      - by specialize (Hprep _ Hev).
      - repeat (apply elem_of_cons in Hput as [Hput|Hput]; [done |]).
        by apply elem_of_nil in Hput. }
    specialize (Hup _ Hin). simpl in Hup. destruct Hup as [-> ->].
    destruct (environ !! "DEBUG_BUCKET") as [debug_bucket|]; simpl;
      (split; [done |]); by case_bool_decide.
Qed.



(** X20. [main] does not check the granule id before it starts: an id
    whose key prefix cannot be derived is rejected by the publish stage only.
    With the three variables set, every run on such an id starts by creating
    the input directory, never returns and uploads nothing; and when the
    directories and the client are created, the prepare stage returns and
    the three generators return, the run ends there, raising the exception
    of [output_key_prefix], with the disk as the generators left it. *)
Theorem main_rejects_id_at_publish (environ : gmap string string) sched w
    job_id granule_id default_bucket e :
  environ !! "AWS_BATCH_JOB_ID" = Some job_id ->
  environ !! "GRANULE_ID" = Some granule_id ->
  environ !! "OUTPUT_BUCKET" = Some default_bucket ->
  output_key_prefix (Err:=Err) granule_id = Raise e ->
  let working_dir := joinpath (joinpath (path_of "/var") "scratch") job_id in
  let input_dir := joinpath working_dir "hls" in
  let output_dir := joinpath working_dir "hls-vi" in
  let vi := Str.replace_first "HLS" "HLS-VI" granule_id in
  let hls_vi_metadata := path_str (joinpath output_dir (vi +:+ ".cmr.xml")) in
  let out_json := path_str (joinpath output_dir (vi +:+ "_stac.json")) in
  (forall outcome w' steps,
     main environ sched w = Some (outcome, w', steps) ->
     (exists e', outcome = Raised e') /\
     head steps = Some (StMkdir input_dir) /\
     Forall (fun st => is_upload st = false) steps) /\
  (forall w1 w2 w3 w4 pre w5 w6 w7,
     mkdir_parents input_dir w = (Ok tt, w1) ->
     mkdir_parents output_dir w1 = (Ok tt, w2) ->
     boto3_client w2 = (Ok tt, w3) ->
     prepare_inputs granule_id input_dir sched w3 = Some (Ok tt, w4, pre) ->
     generate_vi_granule input_dir output_dir granule_id w4 = (Ok tt, w5) ->
     generate_metadata input_dir output_dir w5 = (Ok tt, w6) ->
     create_item hls_vi_metadata out_json "data.lpdaac.earthdatacloud.nasa.gov" "020" w6
     = (Ok tt, w7) ->
     main environ sched w
     = Some (Raised e, w7,
             [StMkdir input_dir; StMkdir output_dir; StClient]
             ++ (Core <$> pre)
             ++ [StGenerateVI input_dir output_dir granule_id;
                 StGenerateMetadata input_dir output_dir;
                 StCreateItem hls_vi_metadata out_json
                   "data.lpdaac.earthdatacloud.nasa.gov" "020"])).
Proof.
  intros Hjob Hgranule Hbucket Hkey working_dir input_dir output_dir vi
    hls_vi_metadata out_json.
  split.
  - intros outcome w' steps Hmain.
    destruct (main_inv _ _ _ _ _ _ Hmain) as
      [(name & -> & ->)|
       (job_id' & granule_id' & default_bucket' & r & Hjob' & Hgranule' & _ & Hstages & ->)].
    { revert Hmain. unfold main. rewrite Hjob, Hgranule, Hbucket.
      by destruct (main_stages _ _ _ _ _ _) as [[[[[]|e'] w1] t1]|]. }
    rewrite Hjob in Hjob'. injection Hjob' as <-.
    rewrite Hgranule in Hgranule'. injection Hgranule' as <-.
    assert (head steps = Some (StMkdir input_dir)) as Hhead.
    { revert Hstages. unfold main_stages. fold working_dir. fold input_dir.
      unfold dbind at 1, dcall at 1.
      destruct (mkdir_parents input_dir w) as [[[]|e1] w1]; [| by intros [= <- <- <-]].
      match goal with
      | |- match ?m with _ => _ end = _ -> _ =>
          destruct m as [[[r2 w2] t2]|]; [| done]
      end.
      by intros [= <- <- <-]. }
    apply main_stages_run in Hstages as [[[e' ->] Hnone]|Hreached].
    + split; [by eexists |]. by split.
    + destruct Hreached as (w3 & w4 & pre & w7 & up & Hprep & Hup & ->).
      revert Hup. unfold upload_outputs, bind at 1, lift. rewrite Hkey.
      intros [= <- <- <-].
      pose proof (prepare_inputs_no_put _ _ _ _ _ _ _ Hprep) as Hpre.
      split; [by eexists |]. split; [done |].
      repeat (apply Forall_cons; split; [done |]).
      repeat (apply Forall_app; split); [| by repeat constructor | done].
      apply Forall_fmap. eapply Forall_impl; [exact Hpre | by intros []].
  - intros w1 w2 w3 w4 pre w5 w6 w7 Hmk1 Hmk2 Hclient Hprep Hvi Hmeta Hitem.
    unfold main. rewrite Hjob, Hgranule, Hbucket. cbv zeta.
    unfold main_stages. fold working_dir. fold input_dir. fold output_dir.
    unfold dbind at 1, dcall at 1. rewrite Hmk1.
    unfold dbind at 1, dcall at 1. rewrite Hmk2.
    unfold dbind at 1, dcall at 1. rewrite Hclient.
    unfold dbind at 1, core_scheduled. rewrite Hprep.
    unfold dbind at 1, create_outputs, dbind at 1, dcall at 1. rewrite Hvi.
    unfold dbind at 1, dcall at 1. rewrite Hmeta.
    unfold dcall at 1. fold vi. fold hls_vi_metadata. fold out_json. rewrite Hitem.
    unfold core, upload_outputs, bind at 1, lift. rewrite Hkey.
    by rewrite fmap_nil, !app_nil_r.
Qed.

End DriverFacts.

(** ** The development script *)

Section ScriptFacts.
Context `{DevStore}.


(** X19. The development downloader does not contact the origin when the
    destination file is already there: it uploads the existing file.  When
    the destination is absent and the request raises, or the response has
    an error status, it raises that exception, having saved no file and
    uploaded nothing. *)
Theorem transfer_guards (src : Source) dst w :
  let url := "https://data.lpdaac.earthdatacloud.nasa.gov/" +:+ src.1 +:+ "/" +:+ src.2 in
  (path_exists dst w = true ->
   (transfer src dst w).2
   = match open_rb dst w with
     | Ok body => [DevPut src.1 src.2 body]
     | Raise _ => []
     end) /\
  (path_exists dst w = false ->
   forall e w1, session_get url w = (Raise e, w1) ->
   transfer src dst w = (Raise e, w1, [DevGet url])) /\
  (path_exists dst w = false ->
   forall resp w1 e, session_get url w = (Ok resp, w1) -> raise_for_status resp = Raise e ->
   transfer src dst w = (Raise e, w1, [DevGet url])).
Proof.
  destruct src as [bucket key]. cbv zeta. cbn [fst snd]. repeat split.
  - intros Hex. unfold transfer, sbind at 1, http_download. rewrite Hex.
    unfold sbind, scall.
    destruct (open_rb dst w) as [body|e]; [| done].
    by destruct (s3_put_object_default bucket key body w) as [r w2].
  - intros Hex e w1 Hget. unfold transfer, sbind at 1, http_download. rewrite Hex.
    unfold sbind at 1, scall. by rewrite Hget.
  - intros Hex resp w1 e Hget Hstatus.
    unfold transfer, sbind at 1, http_download. rewrite Hex.
    unfold sbind at 1, scall. rewrite Hget.
    unfold sbind at 1. by rewrite Hstatus.
Qed.

End ScriptFacts.

(** ** The further properties on the concrete platform *)

Lemma download_files_fetches_only_missing_witness :
  exists out w' evs,
    download_files (H:=Toy.platform) make_s3_downloader Toy.unreachable
      Toy.input_dir [2; 0; 1] [] = Some (out, w', evs) /\
    length evs
    <= length (missing_tasks (H:=Toy.platform) [] Toy.unreachable Toy.input_dir).
Proof.
  eexists _, _, _.
  assert (Hrun : download_files (H:=Toy.platform) make_s3_downloader Toy.unreachable
                   Toy.input_dir [2; 0; 1] [] = Some (_, _, _))
    by (vm_compute; reflexivity).
  split; [exact Hrun |].
  exact (proj1 (proj2 (download_files_fetches_only_missing (H:=Toy.platform)
                         _ _ _ _ _ _ _ _ Hrun))).
Defined.

Lemma download_files_fetches_each_once_witness :
  exists fetched w' evs,
    download_files (H:=Toy.platform) make_s3_downloader Toy.wanted Toy.input_dir
      [0] Toy.partly_fetched = Some (Ok fetched, w', evs) /\
    length evs = length fetched.1.
Proof.
  eexists _, _, _.
  assert (Hrun : download_files (H:=Toy.platform) make_s3_downloader Toy.wanted
                   Toy.input_dir [0] Toy.partly_fetched = Some (Ok _, _, _))
    by (vm_compute; reflexivity).
  split; [exact Hrun |].
  exact (proj2 (download_files_fetches_each_once (H:=Toy.platform)
                  _ _ _ _ _ _ _ _ Hrun)).
Defined.

Lemma download_files_join_witness :
  exists fetched w' evs,
    download_files (H:=Toy.platform) make_s3_downloader Toy.wanted Toy.input_dir
      [0] Toy.partly_fetched = Some (Ok fetched, w', evs) /\
    Toy.exists_on "/var/scratch/job-1/hls/G.B02.tif" w' = true /\
    Toy.exists_on "/var/scratch/job-1/hls/G.B03.tif" w' = true.
Proof.
  eexists _, _, _.
  assert (Hrun : download_files (H:=Toy.platform) make_s3_downloader Toy.wanted
                   Toy.input_dir [0] Toy.partly_fetched = Some (Ok _, _, _))
    by (vm_compute; reflexivity).
  split; [exact Hrun |].
  destruct (download_files_join (H:=Toy.platform) _ _ _ _ _ _ _ _
              Toy_fetch_writes_destination Hrun) as [Hall _].
  split.
  - apply (Hall ("lp-prod-protected", "HLSL30.020/G/G.B02.tif")). by left.
  - apply (Hall ("lp-prod-protected", "HLSL30.020/G/G.B03.tif")). right. by left.
Defined.

Lemma download_files_same_basename_witness :
  exists fetched w' evs,
    download_files (H:=Toy.platform) make_s3_downloader
      [("lp-prod-public", "a/x.tif"); ("lp-prod-protected", "b/x.tif")]
      Toy.input_dir [1; 0] [] = Some (Ok fetched, w', evs) /\
    (("lp-prod-public", "a/x.tif") ∈ fetched.1
     <-> ("lp-prod-protected", "b/x.tif") ∈ fetched.1).
Proof.
  eexists _, _, _.
  assert (Hrun : download_files (H:=Toy.platform) make_s3_downloader
                   [("lp-prod-public", "a/x.tif"); ("lp-prod-protected", "b/x.tif")]
                   Toy.input_dir [1; 0] [] = Some (Ok _, _, _))
    by (vm_compute; reflexivity).
  split; [exact Hrun |].
  refine (proj1 (download_files_same_basename (H:=Toy.platform) _ _ _ _ _ _ _ _
                   ("lp-prod-public", "a/x.tif") ("lp-prod-protected", "b/x.tif")
                   Hrun _ _ _)).
  - by left.
  - right. by left.
  - reflexivity.
Defined.

Lemma download_files_nothing_missing_witness :
  download_files (H:=Toy.platform) make_s3_downloader
    [("lp-prod-protected", "HLSL30.020/G/G.B03.tif")] Toy.input_dir []
    Toy.partly_fetched
  = Some (Ok ([], []), Toy.partly_fetched, []).
Proof.
  refine (proj1 (download_files_nothing_missing (H:=Toy.platform) make_s3_downloader
                   [("lp-prod-protected", "HLSL30.020/G/G.B03.tif")] Toy.input_dir
                   Toy.partly_fetched _)).
  intros src Hsrc. apply list_elem_of_singleton in Hsrc. rewrite Hsrc. reflexivity.
Defined.

Lemma prepare_inputs_fail_fast_witness :
  exists r w' evs,
    prepare_inputs (H:=Toy.platform) "HLS.S30.T00AAA.2025105T234641.v2.0"
      Toy.input_dir [0] [] = Some (r, w', evs) /\
    r = Raise (External "NoSuchKey") /\ w' = [] /\
    Forall (fun ev => is_download ev) evs.
Proof.
  eexists _, _, _.
  assert (Hrun : prepare_inputs (H:=Toy.platform) "HLS.S30.T00AAA.2025105T234641.v2.0"
                   Toy.input_dir [0] [] = Some (_, _, _))
    by (vm_compute; reflexivity).
  split; [exact Hrun |].
  destruct (prepare_inputs_fail_fast (H:=Toy.platform) _ _ _ _ _ _ _ Hrun)
    as (out & w1 & fetches & Hdl & Hfetches & Hraise & _).
  vm_compute in Hdl. injection Hdl as <- <- <-.
  destruct (Hraise _ eq_refl) as (Hr & Hw & Hevs).
  split; [exact Hr |]. split; [exact Hw |]. exact Hfetches.
Defined.


Lemma create_manifest_arguments_witness :
  exists g,
    GranuleId_from_string (Err:=string) Toy.granule = Ok g /\
    (create_manifest (H:=Toy.platform) "job-1" Toy.granule Toy.output_dir
       "lp-prod-output" Toy.produced).2
    = [EvManifest (H:=Toy.platform)
         ["/var/scratch/job-1/hls-vi";
          "/var/scratch/job-1/hls-vi/HLS-VI.L30.T58UFF.2025105T234951.v2.0.json";
          "s3://lp-prod-output/L30_VI/data/2025105/HLS-VI.L30.T58UFF.2025105T234951.v2.0";
          "HLS" +:+ Instrument_name (instrument g) +:+ "_VI";
          "HLS-VI.L30.T58UFF.2025105T234951.v2.0"; "job-1"; "false"]].
Proof.
  eexists. split; [reflexivity |].
  refine (create_manifest_arguments (H:=Toy.platform) "job-1" Toy.granule Toy.output_dir
            "lp-prod-output" Toy.produced _
            "L30_VI/data/2025105/HLS-VI.L30.T58UFF.2025105T234951.v2.0" _ _ _);
    reflexivity.
Defined.

Lemma upload_outputs_no_partial_manifest_witness :
  exists r w' evs entries,
    iterdir (Platform:=Toy.platform) Toy.output_dir Toy.produced = Ok entries /\
    upload_outputs (H:=Toy.platform) "job-1" Toy.granule Toy.output_dir
      "read-only" false Toy.produced = (r, w', evs) /\
    r = Raise (External "AccessDenied") /\
    exists src body,
      entries !! 0 = Some src /\
      evs = [artifact_put (H:=Toy.platform) "read-only"
               "L30_VI/data/2025105/HLS-VI.L30.T58UFF.2025105T234951.v2.0" "private"
               (src, body)].
Proof.
  eexists _, _, _, _.
  assert (Hrun : upload_outputs (H:=Toy.platform) "job-1" Toy.granule Toy.output_dir
                   "read-only" false Toy.produced = (_, _, _))
    by (vm_compute; reflexivity).
  assert (Hdir : iterdir (Platform:=Toy.platform) Toy.output_dir Toy.produced
                 = Ok [_; _]) by (vm_compute; reflexivity).
  assert (Hkey : output_key_prefix (Err:=string) Toy.granule
                 = Ok "L30_VI/data/2025105/HLS-VI.L30.T58UFF.2025105T234951.v2.0")
    by reflexivity.
  split; [exact Hdir |]. split; [exact Hrun |]. split; [reflexivity |].
  destruct (upload_outputs_no_partial_manifest (H:=Toy.platform) _ _ _ _ _ _ _ _ _ _ _
              Hkey Hdir Hrun) as (sent & w1 & Hsent & Hdone & Hend).
  destruct sent as [|[src0 body0] sent].
  - simpl in Hdone. subst w1.
    destruct Hend as [(src & e & Hnext & Hopen & _)|
                      [(src & body & e & Hnext & _ & _ & _ & Hevs)|(Hall & _)]].
    + exfalso. injection Hnext as <-. vm_compute in Hopen. discriminate Hopen.
    + exists src, body. split; [exact Hnext | exact Hevs].
    + discriminate Hall.
  - exfalso. destruct Hdone as (_ & w2 & Hput & _).
    vm_compute in Hput. discriminate Hput.
Defined.

Lemma publish_rejects_before_any_effect_witness :
  upload_outputs (H:=Toy.platform) "job-1" "not-a-granule" Toy.output_dir
    "lp-prod-output" false Toy.produced
  = (Raise MalformedGranuleId, Toy.produced, []).
Proof.
  refine (proj1 (publish_rejects_before_any_effect (H:=Toy.platform) "job-1"
                   "not-a-granule" Toy.output_dir "lp-prod-output" false Toy.produced
                   MalformedGranuleId _)).
  reflexivity.
Defined.

Lemma main_requires_environment_witness :
  main (H0:=Toy_runtime) debug_only_environ [] []
  = Some (KeyError "OUTPUT_BUCKET", [], []).
Proof.
  refine (proj1 (proj2 (proj2 (main_requires_environment (H0:=Toy_runtime)
                                 debug_only_environ [] []))) _ _ _).
  - exists "job-1". vm_compute. reflexivity.
  - exists "HLS.L30.T58UFF.2025105T234951.v2.0". vm_compute. reflexivity.
  - vm_compute. reflexivity.
Defined.

Lemma main_upload_mode_witness :
  exists w' steps bucket key body acl,
    main (H0:=Toy_runtime) production_environ (seq 0 9) [] = Some (Returned, w', steps) /\
    Core (EvPut bucket key body acl) ∈ steps /\
    production_environ !! "OUTPUT_BUCKET" = Some bucket /\ acl = "private".
Proof.
  eexists _, _, _, _, _, _.
  assert (Hrun : main (H0:=Toy_runtime) production_environ (seq 0 9) []
                 = Some (Returned, _, _))
    by (vm_compute; reflexivity).
  match type of Hrun with
  | _ = Some (_, _, ?l) =>
      assert (Hin : Core (H:=Toy.platform) (EvPut _ _ _ _) ∈ l)
        by (apply (list_elem_of_lookup_2 _ 17); vm_compute; reflexivity)
  end.
  split; [exact Hrun |]. split; [exact Hin |].
  exact (main_upload_mode (H0:=Toy_runtime) _ _ _ _ _ _ _ _ _ _ Hrun Hin).
Defined.



Lemma main_rejects_id_at_publish_witness :
  exists w7 steps,
    main (H0:=Toy_runtime) malformed_environ (seq 0 9) []
    = Some (Raised MalformedGranuleId, w7, steps) /\
    length steps = 17 /\
    last steps
    = Some (StCreateItem (H:=Toy.platform)
              "/var/scratch/job-1/hls-vi/not-a-granule.cmr.xml"
              "/var/scratch/job-1/hls-vi/not-a-granule_stac.json"
              "data.lpdaac.earthdatacloud.nasa.gov" "020").
Proof.
  assert (Hjob : malformed_environ !! "AWS_BATCH_JOB_ID" = Some "job-1")
    by (vm_compute; reflexivity).
  assert (Hgranule : malformed_environ !! "GRANULE_ID" = Some "not-a-granule")
    by (vm_compute; reflexivity).
  assert (Hbucket : malformed_environ !! "OUTPUT_BUCKET" = Some "lp-prod-output")
    by (vm_compute; reflexivity).
  assert (Hkey : output_key_prefix (Err:=string) "not-a-granule" = Raise MalformedGranuleId)
    by reflexivity.
  assert (Hprep : prepare_inputs (H:=Toy.platform) "not-a-granule"
                    "/var/scratch/job-1/hls" (seq 0 9) [] = Some (Ok tt, _, _))
    by (vm_compute; reflexivity).
  pose proof (proj2 (main_rejects_id_at_publish (H0:=Toy_runtime) malformed_environ
                       (seq 0 9) [] "job-1" "not-a-granule" "lp-prod-output"
                       MalformedGranuleId Hjob Hgranule Hbucket Hkey)
                _ _ _ _ _ _ _ _ eq_refl eq_refl eq_refl Hprep eq_refl eq_refl eq_refl)
    as Hmain.
  eexists _, _. split; [exact Hmain |]. split; vm_compute; reflexivity.
Defined.


Lemma transfer_guards_witness :
  transfer (H0:=Toy_store) ("nowhere", "q/b.tif") "/tmp/b.tif" []
  = (Raise (External "ConnectionError"), [],
     [DevGet (H:=Toy.platform) "https://data.lpdaac.earthdatacloud.nasa.gov/nowhere/q/b.tif"]).
Proof.
  refine (proj1 (proj2 (transfer_guards (H0:=Toy_store) ("nowhere", "q/b.tif")
                          "/tmp/b.tif" [])) _ _ _ _); reflexivity.
Defined.
